(** * api/storage.js: the shared key-value endpoint

    A shallow embedding of the serverless handler of [src/api/storage.js]
    and of the module initialisation that precedes it.

    - JavaScript data is a JSON document ([json]); [undefined] is the
      [None] of [option json].  Objects are finite maps from property
      names to documents.
    - [process.env] is a finite map from names to strings.
    - The tagged template [sql`...`] is the only effect of the handler.  A
      handler run is a program over the three statements the source
      contains ([prog]), interpreted against an arbitrary database driver
      ([driver]) that resolves or rejects each statement.
    - The builtins [JSON.parse] and [URL] are parameters ([runtime]). *)

From stdpp Require Import gmap strings list pretty.
From Stdlib Require Import ZArith.

#[local] Set Warnings "-register-all".
#[local] Open Scope string_scope.
#[local] Open Scope Z_scope.

(** ** JavaScript values *)

Inductive json : Type :=
  | JNull
  | JBool (b : bool)
  | JNum (n : Z)
  | JStr (s : string)
  | JArr (items : list json)
  | JObj (fields : gmap string json).

(** A JavaScript value that may be [undefined]. *)
Abbreviation jsval := (option json).

(** ToBoolean.  Numbers are carried as integers: the handler never computes
    with a number, it only tests it for truthiness. *)
Definition truthy (v : json) : bool :=
  match v with
  | JNull => false
  | JBool b => b
  | JNum n => negb (n =? 0)
  | JStr s => negb (String.eqb s "")
  | JArr _ => true
  | JObj _ => true
  end.

Definition truthy_val (v : jsval) : bool :=
  match v with
  | Some j => truthy j
  | None => false
  end.

(** [typeof v === 'object'] *)
Definition typeof_object (v : json) : bool :=
  match v with
  | JNull | JArr _ | JObj _ => true
  | JBool _ | JNum _ | JStr _ => false
  end.

(** [v.k] for the property names the handler reads ([ping], [kv], [value],
    [stamp]): none of them is defined on a prototype, so only an own
    property of an object answers. *)
Definition get_prop (v : json) (k : string) : jsval :=
  match v with
  | JObj fields => fields !! k
  | _ => None
  end.

(** [v[0]] *)
Definition get_first (v : json) : jsval :=
  match v with
  | JArr items => head items
  | JStr (String c _) => Some (JStr (String c EmptyString))
  | JObj fields => fields !! "0"
  | _ => None
  end.

(** [a && k(a)]: the right operand is evaluated on a truthy [a] only, so a
    property is never read from [undefined] or [null]. *)
Definition guard (a : jsval) (k : json -> jsval) : jsval :=
  match a with
  | Some v => if truthy v then k v else a
  | None => None
  end.

(** [a === s] for a string [s] *)
Definition strict_eq_string (a : jsval) (s : string) : bool :=
  match a with
  | Some (JStr s') => String.eqb s' s
  | _ => false
  end.

(** An object literal: [{}] and [{ k: v, ... }] are written with the map
    notations [∅] and [{[ k := v; ... ]}]. *)
Definition empty_object : json := JObj ∅.

(** A property whose value may be [undefined]; the response is serialised
    with JSON.stringify, which leaves such a property out. *)
Definition with_optional (k : string) (v : jsval) (fields : gmap string json)
  : gmap string json :=
  match v with
  | Some j => <[k := j]> fields
  | None => fields
  end.

(** ** The process environment *)

(** [!!process.env[k]]: the variable is defined and not the empty string. *)
Definition env_truthy (env : gmap string string) (k : string) : bool :=
  match env !! k with
  | Some v => negb (String.eqb v "")
  | None => false
  end.

(** Lines 14-16, run once when the module is loaded. *)
Definition module_init (env : gmap string string) : gmap string string :=
  if negb (env_truthy env "POSTGRES_URL") && env_truthy env "DATABASE_URL"
  then match env !! "DATABASE_URL" with
       | Some v => <["POSTGRES_URL" := v]> env
       | None => env
       end
  else env.

Definition hasPostgresEnv (env : gmap string string) : bool :=
  env_truthy env "POSTGRES_URL"
  || env_truthy env "POSTGRES_PRISMA_URL"
  || env_truthy env "POSTGRES_URL_NON_POOLING"
  || env_truthy env "POSTGRES_HOST"
  || env_truthy env "DATABASE_URL".

(** The five names [hasPostgresEnv] reads, in its order. *)
Definition recognized_vars : list string :=
  ["POSTGRES_URL"; "POSTGRES_PRISMA_URL"; "POSTGRES_URL_NON_POOLING";
   "POSTGRES_HOST"; "DATABASE_URL"].

(** What a request sees besides itself: the environment after module
    initialisation, [process.version] and the clock read by [Date.now()]. *)
Record host := {
  process_env : gmap string string;
  process_version : string;
  Date_now : Z
}.

(** ** Requests, responses and errors *)

Record request := {
  req_url : string;
  req_method : string;
  req_body : jsval
}.

(** [headers] lists the [res.setHeader] calls in their order. *)
Record response := {
  status : Z;
  headers : list (string * string);
  body : json
}.

(** A thrown value, as far as the catch clause looks at it: its [message],
    [code] and [name], each possibly [undefined]. *)
Record js_error := {
  e_message : option string;
  e_code : option string;
  e_name : option string
}.

(** [p ? String(p) : d] on a property that is a string or [undefined] *)
Definition string_or (p : option string) (d : string) : string :=
  match p with
  | Some s => if String.eqb s "" then d else s
  | None => d
  end.

(** [p ? String(p) : undefined] *)
Definition string_or_undefined (p : option string) : jsval :=
  match p with
  | Some s => if String.eqb s "" then None else Some (JStr s)
  | None => None
  end.

(** The builtins the handler calls.  [JSON_parse] is [None] where
    JSON.parse throws; [URL_searchParams_get url name] is [None] where
    [new URL(url, 'http://localhost')] throws, and otherwise what
    [searchParams.get(name)] returns, [null] being the inner [None]. *)
Record runtime := {
  JSON_parse : string -> option json;
  URL_searchParams_get : string -> string -> option (option string)
}.

(** ** The database statements and handler programs *)

Definition STORAGE_KEY : string := "sdmfpippdc:storage:v1".
Definition PING_KEY : string := "sdmfpippdc:ping:v1".

(** The three statements of the source.  The value of an upsert is the
    document that [JSON.stringify(v)] denotes, cast to [jsonb]. *)
Inductive stmt : Type :=
  | CreateTable
  | SelectValue (key : string)
  | Upsert (key : string) (value : json).

(** A program awaits statements one after the other; [Sql q k] continues
    with the [rows] of the result of [q].  A rejected statement throws at
    the [await], which is where the interpreter [run] stops. *)
Inductive prog (A : Type) : Type :=
  | Ret (a : A)
  | Sql (q : stmt) (k : jsval -> prog A).

Arguments Ret {A} a.
Arguments Sql {A} q k.

Fixpoint prog_bind {A B : Type} (f : A -> prog B) (p : prog A) : prog B :=
  match p with
  | Ret a => f a
  | Sql q k => Sql q (fun rows => prog_bind f (k rows))
  end.

#[export] Instance prog_ret : MRet prog := fun A a => Ret a.
#[export] Instance prog_mbind : MBind prog := fun A B f p => prog_bind f p.

Definition sql (q : stmt) : prog jsval := Sql q Ret.

(** A database driver: a state and, for each statement, either the [rows]
    it resolves with or the error it rejects with. *)
Record driver := {
  db : Type;
  exec : stmt -> db -> (js_error + jsval) * db
}.

(** What a run leaves behind: the statements awaited with what each one
    gave, the response sent, and the database state. *)
Record outcome (S A : Type) := {
  log : list (stmt * (js_error + jsval));
  result : A;
  final : S
}.

Arguments log {S A} o.
Arguments result {S A} o.
Arguments final {S A} o.

Definition issued {S A : Type} (o : outcome S A) : list stmt := (log o).*1.

Fixpoint run (D : driver) {A : Type} (p : prog A) (s : db D)
  : outcome (db D) (js_error + A) :=
  match p with
  | Ret a => {| log := []; result := inr a; final := s |}
  | Sql q k =>
      match exec D q s with
      | (inl e, s') => {| log := [(q, inl e)]; result := inl e; final := s' |}
      | (inr rows, s') =>
          let o := run D (k rows) s' in
          {| log := (q, inr rows) :: log o; result := result o; final := final o |}
      end
  end.

(** ** The handler *)

Definition no_store : string * string := ("Cache-Control", "no-store").

Definition ensureSchema : prog unit := _ ← sql CreateTable; mret tt.

Section Handler.

Variable rt : runtime.

(** Lines 44-52: a string body is parsed, the empty string as [{}]; any
    other body is taken as it is when truthy; what JSON.parse throws is
    caught here. *)
Definition parseBody (req : request) : json :=
  match req_body req with
  | Some (JStr s) =>
      match JSON_parse rt (if String.eqb s "" then "{}" else s) with
      | Some v => v
      | None => empty_object
      end
  | Some v => if truthy v then v else empty_object
  | None => empty_object
  end.

(** Lines 57-65: the query parameter, or the substring search when the URL
    does not parse. *)
Definition diag_requested (req : request) : bool :=
  match URL_searchParams_get rt (req_url req) "diag" with
  | Some v =>
      match v with
      | Some s => String.eqb s "1" || String.eqb s "true"
      | None => false
      end
  | None =>
      negb (String.eqb (req_url req) "")
      && bool_decide (is_Some (String.index 0 "diag=1" (req_url req)))
  end.

Definition diag_response (h : host) : response :=
  {| status := 200;
     headers := [no_store];
     body := JObj {[
       "ok" := JBool true;
       "diag" := JObj {[
         "hasPostgresEnv" := JBool (hasPostgresEnv (process_env h));
         "has_POSTGRES_URL" := JBool (env_truthy (process_env h) "POSTGRES_URL");
         "has_POSTGRES_PRISMA_URL" :=
           JBool (env_truthy (process_env h) "POSTGRES_PRISMA_URL");
         "has_POSTGRES_URL_NON_POOLING" :=
           JBool (env_truthy (process_env h) "POSTGRES_URL_NON_POOLING");
         "has_POSTGRES_HOST" := JBool (env_truthy (process_env h) "POSTGRES_HOST");
         "has_DATABASE_URL" := JBool (env_truthy (process_env h) "DATABASE_URL");
         "node" := JStr (process_version h) ]} ]} |}.

Definition not_configured_response : response :=
  {| status := 503;
     headers := [no_store];
     body := JObj {[
       "ok" := JBool false;
       "error" := JStr "pg_not_configured";
       "message" := JStr
         "Vercel Postgres (Neon) non configuré (variables d'environnement manquantes)." ]} |}.

(** [rows && rows[0] && rows[0].value] *)
Definition first_value (rows : jsval) : jsval :=
  guard rows (fun r => guard (get_first r) (fun r0 => get_prop r0 "value")).

(** Line 96 *)
Definition get_kv (rows : jsval) : json :=
  let v := first_value rows in
  if truthy_val v then default empty_object v else empty_object.

Definition get_response (rows : jsval) : response :=
  {| status := 200;
     headers := [no_store];
     body := JObj {[ "ok" := JBool true; "kv" := get_kv rows ]} |}.

(** Line 113 *)
Definition stamp_matches (rows : jsval) (stamp : string) : bool :=
  truthy_val
    (guard (first_value rows)
       (fun v => Some (JBool (strict_eq_string (get_prop v "stamp") stamp)))).

Definition ping_response (ok : bool) : response :=
  {| status := if ok then 200 else 500;
     headers := [no_store];
     body := JObj {[ "ok" := JBool ok ]} |}.

(** Line 118 *)
Definition post_kv (body : json) : json :=
  let kv := guard (Some body) (fun b => get_prop b "kv") in
  if truthy_val (guard kv (fun v => Some (JBool (typeof_object v))))
  then default empty_object kv
  else empty_object.

Definition ok_response : response :=
  {| status := 200;
     headers := [no_store];
     body := JObj {[ "ok" := JBool true ]} |}.

Definition method_not_allowed_response : response :=
  {| status := 405;
     headers := [("Allow", "GET, POST")];
     body := JObj {[ "ok" := JBool false; "error" := JStr "method_not_allowed" ]} |}.

(** The catch clause, lines 133-143. *)
Definition error_response (e : js_error) : response :=
  {| status := 500;
     headers := [no_store];
     body := JObj {[
       "ok" := JBool false;
       "error" := JStr (string_or (e_message e) "server_error");
       "details" := JObj
         (with_optional "code" (string_or_undefined (e_code e))
            (with_optional "name" (string_or_undefined (e_name e)) ∅)) ]} |}.

(** [String(Date.now())] *)
Definition stamp_of (h : host) : string := pretty (Date_now h).

(** The body of the [try] block, lines 56-132. *)
Definition handler_try (h : host) (req : request) : prog response :=
  if diag_requested req then mret (diag_response h)
  else if negb (hasPostgresEnv (process_env h)) then mret not_configured_response
  else
    _ ← ensureSchema;
    if String.eqb (req_method req) "GET" then
      rows ← sql (SelectValue STORAGE_KEY);
      mret (get_response rows)
    else if String.eqb (req_method req) "POST" then
      let body := parseBody req in
      if truthy_val (guard (Some body) (fun b => get_prop b "ping")) then
        let stamp := stamp_of h in
        _ ← sql (Upsert PING_KEY (JObj {[ "stamp" := JStr stamp ]}));
        rows ← sql (SelectValue PING_KEY);
        mret (ping_response (stamp_matches rows stamp))
      else
        _ ← sql (Upsert STORAGE_KEY (post_kv body));
        mret ok_response
    else mret method_not_allowed_response.

(** The exported function: the [try] block run against a driver, and the
    catch clause for whatever a statement rejected with. *)
Definition handler (D : driver) (h : host) (req : request) (s : db D)
  : outcome (db D) response :=
  let o := run D (handler_try h req) s in
  {| log := log o;
     result := match result o with
               | inr r => r
               | inl e => error_response e
               end;
     final := final o |}.

End Handler.

Arguments handler_try rt h req : simpl never.

(** ** A database that behaves as specified *)

(** The error of a statement that names a table that does not exist. *)
Definition undefined_table : js_error :=
  {| e_message := Some "relation app_storage does not exist";
     e_code := Some "42P01";
     e_name := Some "error" |}.

(** Modelled from the spec: the database behind [sql] (the client library
    and the server are not part of the repository).  The table
    [app_storage] is absent ([None]) or holds at most one row per key;
    the creation statement creates it only if absent; an upsert inserts
    the row or replaces its value; a select returns the row of the key, if
    any, as [{ value }].  A statement on an absent table is rejected.
    The column [updated_at], which every upsert sets to the current time
    and no statement of the handler reads, is left out: the table is a
    map from keys to values, to be compared by the values it holds. *)
Definition ideal_exec (q : stmt) (t : option (gmap string json))
  : (js_error + jsval) * option (gmap string json) :=
  match q, t with
  | CreateTable, None => (inr (Some (JArr [])), Some ∅)
  | CreateTable, Some _ => (inr (Some (JArr [])), t)
  | _, None => (inl undefined_table, t)
  | SelectValue k, Some rows =>
      (inr (Some (JArr match rows !! k with
                       | Some v => [JObj {[ "value" := v ]}]
                       | None => []
                       end)), t)
  | Upsert k v, Some rows => (inr (Some (JArr [])), Some (<[k := v]> rows))
  end.

Definition ideal : driver := {| db := option (gmap string json); exec := ideal_exec |}.

(** The value stored under a key. *)
Definition stored (t : option (gmap string json)) (k : string) : jsval :=
  match t with
  | Some rows => rows !! k
  | None => None
  end.

(** A driver whose every statement is rejected, as when the server cannot
    be reached. *)
Definition connection_refused : js_error :=
  {| e_message := Some "connect ECONNREFUSED";
     e_code := Some "ECONNREFUSED";
     e_name := Some "Error" |}.

Definition unreachable : driver :=
  {| db := unit; exec := fun _ s => (inl connection_refused, s) |}.

(** ** Sample inputs for the examples *)

(** What the builtins give on the handful of texts the examples use.  [lbrace]
    is a text that is not JSON; the second URL has an unclosed IPv6 host,
    which the URL constructor refuses. *)
Definition lbrace : string := "{".

Definition sample_runtime : runtime :=
  {| JSON_parse := fun s =>
       if String.eqb s "{}" then Some empty_object
       else if String.eqb s "null" then Some JNull
       else if String.eqb s "[]" then Some (JArr [])
       else None;
     URL_searchParams_get := fun url name =>
       if String.eqb url "/api/storage?diag=1" && String.eqb name "diag"
       then Some (Some "1")
       else if String.eqb url "//[?diag=1" then None
       else Some None |}.

Definition configured_host : host :=
  {| process_env := module_init {[ "DATABASE_URL" := "postgres://db.example/app" ]};
     process_version := "v20.11.0";
     Date_now := 1700000000000 |}.

Definition bare_host : host :=
  {| process_env := ∅; process_version := "v20.11.0"; Date_now := 1700000000000 |}.

Definition request_of (method : string) (b : jsval) : request :=
  {| req_url := "/api/storage"; req_method := method; req_body := b |}.

(** A POST whose [kv] is an array, one whose body is a text that is not
    JSON, a GET whose URL does not parse, and a DELETE. *)
Definition array_post : request :=
  request_of "POST" (Some (JObj {[ "kv" := JArr [JNum 1; JNum 2] ]})).

Definition malformed_post : request := request_of "POST" (Some (JStr lbrace)).

Definition malformed_url_get : request :=
  {| req_url := "//[?diag=1"; req_method := "GET"; req_body := None |}.

Definition delete_request : request := request_of "DELETE" None.

(** A ping, a ping that also carries a [kv], a POST of the document
    [{a:1}], a plain GET and a diagnostic GET. *)
Definition ping_post : request :=
  request_of "POST" (Some (JObj {[ "ping" := JBool true ]})).

Definition ping_with_kv : request :=
  request_of "POST"
    (Some (JObj {[ "ping" := JBool true; "kv" := JObj {[ "a" := JNum 1 ]} ]})).

Definition kv_post : request :=
  request_of "POST" (Some (JObj {[ "kv" := JObj {[ "a" := JNum 1 ]} ]})).

Definition plain_get : request := request_of "GET" None.

Definition diag_get : request :=
  {| req_url := "/api/storage?diag=1"; req_method := "GET"; req_body := None |}.

(** A table that already holds a document under STORAGE_KEY. *)
Definition table_with_document : option (gmap string json) :=
  Some {[ STORAGE_KEY := JObj {[ "old" := JNum 7 ]} ]}.

(** Every response a program can return satisfies [P]. *)
Fixpoint all_returns {A : Type} (P : A -> Prop) (p : prog A) : Prop :=
  match p with
  | Ret a => P a
  | Sql _ k => forall rows, all_returns P (k rows)
  end.

(** ** The words of the specification *)

(** The stamp found by the re-read: the [stamp] property of the [value] of
    the first row. *)
Definition reread_stamp (rows : jsval) : jsval :=
  r ← rows; r0 ← get_first r; v ← get_prop r0 "value"; get_prop v "stamp".

(** The value a data-intent POST is said to store: [body.kv] if present
    and a JSON object, else the empty object. *)
Definition kv_if_object (body : json) : json :=
  match get_prop body "kv" with
  | Some (JObj fields) => JObj fields
  | _ => empty_object
  end.

(** The same, with arrays passing as well. *)
Definition kv_if_object_or_array (body : json) : json :=
  match get_prop body "kv" with
  | Some (JObj fields) => JObj fields
  | Some (JArr items) => JArr items
  | _ => empty_object
  end.

(** A POST without a body, a POST whose body is the JSON text [null], a
    host whose variables hold other values than those of
    [configured_host], and a table with a row that is not the handler's. *)
Definition empty_post : request := request_of "POST" None.

Definition null_text_post : request := request_of "POST" (Some (JStr "null")).

Definition other_host : host :=
  {| process_env := {[ "POSTGRES_URL" := "postgres://primary.example/one";
                       "DATABASE_URL" := "postgres://fallback.example/two";
                       "SESSION_SECRET" := "hunter2" ]};
     process_version := "v20.11.0";
     Date_now := 1800000000000 |}.

Definition table_with_foreign_row : option (gmap string json) :=
  Some {[ "someone:else" := JNum 3 ]}.

(** ** Observations on a run *)

(** The key a statement names. *)
Definition stmt_key (q : stmt) : option string :=
  match q with
  | CreateTable => None
  | SelectValue k => Some k
  | Upsert k _ => Some k
  end.

Definition is_upsert (q : stmt) : bool :=
  match q with
  | Upsert _ _ => true
  | _ => false
  end.

(** The [rows] of a select on a table that behaves as specified. *)
Definition rows_of (v : jsval) : jsval :=
  Some (JArr match v with
             | Some j => [JObj {[ "value" := j ]}]
             | None => []
             end).

(** The table after the creation statement. *)
Definition created (t : option (gmap string json)) : gmap string json :=
  default ∅ t.

(** * Properties *)

(** ** Configuration *)

Lemma env_truthy_spec (env : gmap string string) (k : string) :
  env_truthy env k = true <-> exists v, env !! k = Some v /\ v <> "".
Proof.
  unfold env_truthy. destruct (env !! k) as [v|] eqn:E.
  - rewrite negb_true_iff. split.
    + intros H. exists v. split; [done|]. intros ->. by rewrite String.eqb_refl in H.
    + intros (v' & [= <-] & Hne). by apply String.eqb_neq.
  - split; [done|]. by intros (v & ? & _).
Qed.

Lemma hasPostgresEnv_spec (env : gmap string string) :
  hasPostgresEnv env = true <->
  Exists (fun k => env_truthy env k = true) recognized_vars.
Proof.
  unfold hasPostgresEnv, recognized_vars.
  rewrite !Exists_cons, Exists_nil, !orb_true_iff. tauto.
Qed.

Lemma hasPostgresEnv_false (env : gmap string string) :
  hasPostgresEnv env = false <->
  Forall (fun k => env_truthy env k = false) recognized_vars.
Proof.
  unfold hasPostgresEnv, recognized_vars.
  rewrite !Forall_cons, Forall_nil, !orb_false_iff. tauto.
Qed.

Lemma module_init_other (env : gmap string string) (k : string) :
  k <> "POSTGRES_URL" -> module_init env !! k = env !! k.
Proof.
  intros Hk. unfold module_init.
  destruct (negb _ && _); [|done].
  destruct (env !! "DATABASE_URL"); [|done].
  by rewrite lookup_insert_ne.
Qed.

(** C6: when the primary variable POSTGRES_URL is unset (absent or empty)
    and the fallback DATABASE_URL is set (non-empty), module initialisation
    copies the fallback's value into the primary variable and leaves the
    fallback in place; [hasPostgresEnv] answers true, before and after the
    copy, whatever the other variables are, so also when the fallback is
    the only one set; and in every environment [hasPostgresEnv] is true
    exactly when one of the five recognized variables is non-empty. *)
Theorem module_init_fallback (env : gmap string string) (v : string) :
  env_truthy env "POSTGRES_URL" = false ->
  env !! "DATABASE_URL" = Some v ->
  v <> "" ->
  module_init env !! "POSTGRES_URL" = Some v
  /\ module_init env !! "DATABASE_URL" = Some v
  /\ hasPostgresEnv env = true
  /\ hasPostgresEnv (module_init env) = true
  /\ (forall e : gmap string string,
        hasPostgresEnv e = true <->
        Exists (fun k => exists x, e !! k = Some x /\ x <> "") recognized_vars).
Proof.
  intros Hprimary Hfallback Hv.
  assert (Htruthy : env_truthy env "DATABASE_URL" = true).
  { apply env_truthy_spec. eauto. }
  assert (Hinit : module_init env = <["POSTGRES_URL" := v]> env).
  { unfold module_init. by rewrite Hprimary, Htruthy, Hfallback. }
  split; [by rewrite Hinit, lookup_insert_eq|].
  split; [by rewrite module_init_other|].
  split; [unfold hasPostgresEnv; rewrite Htruthy; by rewrite !orb_true_r|].
  split.
  - unfold hasPostgresEnv at 1. unfold env_truthy at 1.
    rewrite Hinit, lookup_insert_eq.
    apply String.eqb_neq in Hv. by rewrite Hv.
  - intros e. rewrite hasPostgresEnv_spec.
    unfold recognized_vars. rewrite !Exists_cons, !Exists_nil, !env_truthy_spec. tauto.
Qed.

(** ** Requests answered without the database *)

Lemma index_diag_nonempty (url : string) :
  is_Some (String.index 0 "diag=1" url) -> String.eqb url "" = false.
Proof. destruct url; [by intros [? [=]]|done]. Qed.

(** C3: a request that is not diagnostic, in an environment where none of
    the five recognized variables is non-empty, is answered 503 with
    [{ok:false, error:"pg_not_configured", message}] whatever its method
    and body; the handler awaits no statement, so on every driver nothing
    is issued and the database state is untouched. *)
Theorem unconfigured_503 (rt : runtime) (h : host) (req : request) :
  diag_requested rt req = false ->
  Forall (fun k => env_truthy (process_env h) k = false) recognized_vars ->
  handler_try rt h req = Ret not_configured_response
  /\ status not_configured_response = 503
  /\ get_prop (body not_configured_response) "ok" = Some (JBool false)
  /\ get_prop (body not_configured_response) "error" = Some (JStr "pg_not_configured")
  /\ (exists text, get_prop (body not_configured_response) "message" = Some (JStr text))
  /\ forall (D : driver) (s : db D),
       issued (handler rt D h req s) = []
       /\ result (handler rt D h req s) = not_configured_response
       /\ final (handler rt D h req s) = s.
Proof.
  intros Hdiag Henv. apply hasPostgresEnv_false in Henv.
  assert (Hprog : handler_try rt h req = Ret not_configured_response).
  { unfold handler_try. by rewrite Hdiag, Henv. }
  split; [done|]. repeat (split; [reflexivity|]).
  split; [eexists; reflexivity|].
  intros D s. unfold handler, issued. by rewrite Hprog.
Qed.

(** C5: when the query parameter [diag] is "1" or "true", or when the URL
    does not parse and contains the text [diag=1], the handler answers 200
    with [{ok:true, diag:{...}}], the flags telling for each recognized
    variable whether it is non-empty; this holds for every host, configured
    or not, and the handler awaits no statement: on every driver nothing is
    issued and the database state is untouched. *)
Theorem diag_short_circuit (rt : runtime) (h : host) (req : request) :
  (exists v, URL_searchParams_get rt (req_url req) "diag" = Some (Some v)
             /\ (v = "1" \/ v = "true"))
  \/ (URL_searchParams_get rt (req_url req) "diag" = None
      /\ is_Some (String.index 0 "diag=1" (req_url req))) ->
  handler_try rt h req = Ret (diag_response h)
  /\ status (diag_response h) = 200
  /\ get_prop (body (diag_response h)) "ok" = Some (JBool true)
  /\ (exists flags,
        get_prop (body (diag_response h)) "diag" = Some flags
        /\ get_prop flags "hasPostgresEnv" = Some (JBool (hasPostgresEnv (process_env h)))
        /\ Forall (fun k => get_prop flags ("has_" +:+ k)
                            = Some (JBool (env_truthy (process_env h) k)))
             recognized_vars)
  /\ forall (D : driver) (s : db D),
       issued (handler rt D h req s) = []
       /\ result (handler rt D h req s) = diag_response h
       /\ final (handler rt D h req s) = s.
Proof.
  intros Hq.
  assert (Hdiag : diag_requested rt req = true).
  { unfold diag_requested. destruct Hq as [(v & -> & [-> | ->]) | [-> Hidx]]; [done..|].
    rewrite (index_diag_nonempty _ Hidx). by apply bool_decide_eq_true. }
  assert (Hprog : handler_try rt h req = Ret (diag_response h)).
  { unfold handler_try. by rewrite Hdiag. }
  split; [done|]. repeat (split; [reflexivity|]).
  split.
  - eexists. split; [reflexivity|]. split; [reflexivity|].
    unfold recognized_vars. repeat constructor.
  - intros D s. unfold handler, issued. by rewrite Hprog.
Qed.

(** ** Requests that reach the database *)

Lemma run_resolved (D : driver) (A : Type) (q : stmt) (k : jsval -> prog A)
    (s s' : db D) (rows : jsval) :
  exec D q s = (inr rows, s') ->
  run D (Sql q k) s =
    {| log := (q, inr rows) :: log (run D (k rows) s');
       result := result (run D (k rows) s');
       final := final (run D (k rows) s') |}.
Proof. intros H. simpl. by rewrite H. Qed.

Lemma run_rejected (D : driver) (A : Type) (q : stmt) (k : jsval -> prog A)
    (s s' : db D) (e : js_error) :
  exec D q s = (inl e, s') ->
  run D (Sql q k) s = {| log := [(q, inl e)]; result := inl e; final := s' |}.
Proof. intros H. simpl. by rewrite H. Qed.

(** The [try] block once the two guards are passed: the schema statement,
    then the dispatch on the method and on the body. *)
Lemma handler_try_configured (rt : runtime) (h : host) (req : request) :
  diag_requested rt req = false ->
  hasPostgresEnv (process_env h) = true ->
  handler_try rt h req =
    Sql CreateTable (fun _ =>
      if String.eqb (req_method req) "GET" then
        Sql (SelectValue STORAGE_KEY) (fun rows => Ret (get_response rows))
      else if String.eqb (req_method req) "POST" then
        if truthy_val (guard (Some (parseBody rt req)) (fun b => get_prop b "ping")) then
          Sql (Upsert PING_KEY (JObj {[ "stamp" := JStr (stamp_of h) ]})) (fun _ =>
            Sql (SelectValue PING_KEY) (fun rows =>
              Ret (ping_response (stamp_matches rows (stamp_of h)))))
        else
          Sql (Upsert STORAGE_KEY (post_kv (parseBody rt req))) (fun _ => Ret ok_response)
      else Ret method_not_allowed_response).
Proof.
  intros Hdiag Henv. unfold handler_try. rewrite Hdiag, Henv. reflexivity.
Qed.

Lemma falsy_no_prop (v : json) (k : string) : truthy v = false -> get_prop v k = None.
Proof. by destruct v. Qed.

Lemma falsy_no_first (v : json) : truthy v = false -> get_first v = None.
Proof. destruct v as [| | |[|c s]| |]; done. Qed.

(** [body && body.p] is truthy exactly when the property is. *)
Lemma guard_prop_truthy (b : json) (k : string) :
  truthy_val (guard (Some b) (fun b => get_prop b k)) = truthy_val (get_prop b k).
Proof.
  unfold guard. destruct (truthy b) eqn:E; [done|].
  rewrite (falsy_no_prop _ _ E). simpl. done.
Qed.

Lemma string_eqb_false (a b : string) : a <> b -> String.eqb a b = false.
Proof. apply String.eqb_neq. Qed.

(** C10: for a request that is not diagnostic, in a configured
    environment, the schema statement is the first statement awaited
    whatever the method is; when the driver rejects it, nothing else is
    issued and the response is the 500 of the catch clause, which for a
    method other than GET and POST is therefore not the 405. *)
Theorem schema_before_dispatch (rt : runtime) (D : driver) (h : host)
    (req : request) (s : db D) :
  diag_requested rt req = false ->
  hasPostgresEnv (process_env h) = true ->
  head (log (handler rt D h req s)) = Some (CreateTable, (exec D CreateTable s).1)
  /\ forall e s',
       exec D CreateTable s = (inl e, s') ->
       issued (handler rt D h req s) = [CreateTable]
       /\ result (handler rt D h req s) = error_response e
       /\ status (result (handler rt D h req s)) = 500
       /\ result (handler rt D h req s) <> method_not_allowed_response
       /\ final (handler rt D h req s) = s'.
Proof.
  intros Hdiag Henv. unfold handler, issued.
  rewrite (handler_try_configured _ _ _ Hdiag Henv).
  split.
  - destruct (exec D CreateTable s) as [[e|rows] s'] eqn:E.
    + by rewrite (run_rejected _ _ _ _ _ _ _ E).
    + by rewrite (run_resolved _ _ _ _ _ _ _ E).
  - intros e s' E. by rewrite (run_rejected _ _ _ _ _ _ _ E).
Qed.

(** C8, as the code has it: for a request that is not diagnostic, in a
    configured environment, with a method other than GET and POST, the
    handler awaits the schema statement and nothing else.  When that
    statement resolves, the response is 405 with the header
    [Allow: GET, POST] and the body [{ok:false, error:"method_not_allowed"}];
    when it is rejected, the response is the 500 of the catch clause, with
    the header [Cache-Control: no-store]. *)
Theorem other_methods_405 (rt : runtime) (D : driver) (h : host)
    (req : request) (s : db D) :
  diag_requested rt req = false ->
  hasPostgresEnv (process_env h) = true ->
  req_method req <> "GET" ->
  req_method req <> "POST" ->
  issued (handler rt D h req s) = [CreateTable]
  /\ (forall rows s',
        exec D CreateTable s = (inr rows, s') ->
        result (handler rt D h req s) =
          {| status := 405;
             headers := [("Allow", "GET, POST")];
             body := JObj {[ "ok" := JBool false;
                             "error" := JStr "method_not_allowed" ]} |}
        /\ final (handler rt D h req s) = s')
  /\ (forall e s',
        exec D CreateTable s = (inl e, s') ->
        result (handler rt D h req s) = error_response e
        /\ status (result (handler rt D h req s)) = 500
        /\ headers (result (handler rt D h req s)) = [("Cache-Control", "no-store")]
        /\ final (handler rt D h req s) = s').
Proof.
  intros Hdiag Henv Hget Hpost. unfold handler, issued.
  rewrite (handler_try_configured _ _ _ Hdiag Henv).
  split; [|split].
  - destruct (exec D CreateTable s) as [[e|rows] s'] eqn:E.
    + by rewrite (run_rejected _ _ _ _ _ _ _ E).
    + rewrite (run_resolved _ _ _ _ _ _ _ E).
      by rewrite (string_eqb_false _ _ Hget), (string_eqb_false _ _ Hpost).
  - intros rows s' E. rewrite (run_resolved _ _ _ _ _ _ _ E).
    by rewrite (string_eqb_false _ _ Hget), (string_eqb_false _ _ Hpost).
  - intros e s' E. by rewrite (run_rejected _ _ _ _ _ _ _ E).
Qed.

(** C8, against the claim: a DELETE that is not diagnostic, in a configured
    environment, on a database that cannot be reached, is answered 500 by
    the catch clause, with [Cache-Control: no-store], and not 405: the
    schema statement awaited before the dispatch was rejected. *)
Lemma delete_with_rejected_schema_is_500 :
  diag_requested sample_runtime delete_request = false
  /\ hasPostgresEnv (process_env configured_host) = true
  /\ req_method delete_request <> "GET"
  /\ req_method delete_request <> "POST"
  /\ log (handler sample_runtime unreachable configured_host delete_request tt)
     = [(CreateTable, inl connection_refused)]
  /\ result (handler sample_runtime unreachable configured_host delete_request tt)
     = error_response connection_refused
  /\ status (result (handler sample_runtime unreachable configured_host delete_request tt))
     = 500
  /\ headers (result (handler sample_runtime unreachable configured_host delete_request tt))
     = [("Cache-Control", "no-store")]
  /\ status (result (handler sample_runtime unreachable configured_host delete_request tt))
     <> 405.
Proof. repeat split; try reflexivity; discriminate. Qed.

(** ** The ping *)

Lemma first_value_falsy_no_stamp (rows : jsval) (v : json) :
  first_value rows = Some v -> truthy v = false -> reread_stamp rows = None.
Proof.
  unfold first_value, reread_stamp, guard.
  destruct rows as [r|]; [|done]. simpl.
  destruct (truthy r) eqn:Er.
  - destruct (get_first r) as [r0|]; [|done]. simpl.
    destruct (truthy r0) eqn:Er0.
    + intros -> Hv. simpl. by apply falsy_no_prop.
    + intros [= <-] _. by rewrite (falsy_no_prop _ _ Er0).
  - intros _ _. by rewrite (falsy_no_first _ Er).
Qed.

Lemma first_value_truthy (rows : jsval) (v : json) :
  first_value rows = Some v -> truthy v = true ->
  reread_stamp rows = get_prop v "stamp".
Proof.
  unfold first_value, reread_stamp, guard.
  destruct rows as [r|]; [|done]. simpl.
  destruct (truthy r) eqn:Er.
  - destruct (get_first r) as [r0|]; [|done]. simpl.
    destruct (truthy r0) eqn:Er0.
    + by intros -> _.
    + intros [= <-] Hv. congruence.
  - intros [= <-] Hv. congruence.
Qed.

Lemma first_value_none (rows : jsval) :
  first_value rows = None -> reread_stamp rows = None.
Proof.
  unfold first_value, reread_stamp, guard.
  destruct rows as [r|]; [|done]. simpl.
  destruct (truthy r) eqn:Er; [|done].
  destruct (get_first r) as [r0|]; [|done]. simpl.
  destruct (truthy r0) eqn:Er0; [|done].
  by intros ->.
Qed.

(** The check of line 113 succeeds exactly when the re-read stamp is the
    string written. *)
Lemma stamp_matches_spec (rows : jsval) (stamp : string) :
  stamp_matches rows stamp = true <-> reread_stamp rows = Some (JStr stamp).
Proof.
  unfold stamp_matches.
  destruct (first_value rows) as [v|] eqn:Ev.
  - unfold guard. destruct (truthy v) eqn:Et.
    + rewrite (first_value_truthy _ _ Ev Et). simpl.
      unfold strict_eq_string.
      destruct (get_prop v "stamp") as [[| | |s'| |]|]; try (split; [done|by intros [=]]).
      rewrite String.eqb_eq. split; [by intros ->|by intros [= ->]].
    + rewrite (first_value_falsy_no_stamp _ _ Ev Et). simpl. rewrite Et. done.
  - rewrite (first_value_none _ Ev). done.
Qed.

(** C2: for a POST that is not diagnostic, in a configured environment,
    whose parsed body has a truthy [ping], once the schema statement has
    resolved the handler upserts [{stamp}] under PING_KEY, the stamp being
    the clock written as a string, and when that write has resolved it
    reads the row back at once.  The response is 200 [{ok:true}] exactly
    when the read resolves with rows whose stamp is the string written;
    when it resolves with anything else the response is 500 [{ok:false}]. *)
Theorem ping_write_then_read (rt : runtime) (D : driver) (h : host)
    (req : request) (s s1 s2 s3 : db D) (r0 r1 : jsval)
    (o : js_error + jsval) :
  diag_requested rt req = false ->
  hasPostgresEnv (process_env h) = true ->
  req_method req = "POST" ->
  truthy_val (get_prop (parseBody rt req) "ping") = true ->
  exec D CreateTable s = (inr r0, s1) ->
  exec D (Upsert PING_KEY (JObj {[ "stamp" := JStr (pretty (Date_now h)) ]})) s1
    = (inr r1, s2) ->
  exec D (SelectValue PING_KEY) s2 = (o, s3) ->
  issued (handler rt D h req s) =
    [CreateTable;
     Upsert PING_KEY (JObj {[ "stamp" := JStr (pretty (Date_now h)) ]});
     SelectValue PING_KEY]
  /\ final (handler rt D h req s) = s3
  /\ (result (handler rt D h req s) =
        {| status := 200; headers := [no_store]; body := JObj {[ "ok" := JBool true ]} |}
      <-> exists rows,
            o = inr rows /\ reread_stamp rows = Some (JStr (pretty (Date_now h))))
  /\ (forall rows,
        o = inr rows ->
        reread_stamp rows <> Some (JStr (pretty (Date_now h))) ->
        result (handler rt D h req s) =
          {| status := 500; headers := [no_store]; body := JObj {[ "ok" := JBool false ]} |}).
Proof.
  intros Hdiag Henv Hpost Hping E0 E1 E2. unfold handler, issued.
  rewrite (handler_try_configured _ _ _ Hdiag Henv).
  rewrite (run_resolved _ _ _ _ _ _ _ E0).
  rewrite Hpost, guard_prop_truthy, Hping. cbn [String.eqb Ascii.eqb Bool.eqb].
  change (stamp_of h) with (pretty (Date_now h)).
  rewrite (run_resolved _ _ _ _ _ _ _ E1).
  destruct o as [e|rows].
  - rewrite (run_rejected _ _ _ _ _ _ _ E2). cbn [log result final fmap list_fmap fst].
    split; [done|]. split; [done|]. split; [|by intros rows [=]].
    split; [by intros [=]|by intros (rows & [=] & _)].
  - rewrite (run_resolved _ _ _ _ _ _ _ E2). cbn [run log result final fmap list_fmap fst].
    split; [done|]. split; [done|].
    pose proof (stamp_matches_spec rows (pretty (Date_now h))) as Hspec.
    destruct (stamp_matches rows (pretty (Date_now h))).
    + split.
      * split; [|done]. intros _. exists rows. split; [done|]. by apply Hspec.
      * intros rows' [= <-] Hne. destruct Hne. by apply Hspec.
    + split.
      * split; [by intros [=]|].
        intros (rows' & [= <-] & Hre). apply Hspec in Hre. done.
      * done.
Qed.

Lemma keys_differ : PING_KEY <> STORAGE_KEY.
Proof. done. Qed.

Lemma prefix_elem_of (l1 l2 : list stmt) (q : stmt) :
  l1 `prefix_of` l2 -> q ∈ l1 -> q ∈ l2.
Proof. intros [k ->] Hq. apply elem_of_app. by left. Qed.

(** C9: for every POST whose parsed body has a truthy [ping], whatever
    else the body holds, the statements issued are an initial part of the
    ping path (schema statement, upsert of the stamp under PING_KEY,
    re-read of PING_KEY); no upsert under STORAGE_KEY is among them, and
    on a database that behaves as specified the STORAGE_KEY row after the
    request is the one before it. *)
Theorem ping_takes_precedence (rt : runtime) (D : driver) (h : host)
    (req : request) (s : db D) :
  req_method req = "POST" ->
  truthy_val (get_prop (parseBody rt req) "ping") = true ->
  issued (handler rt D h req s) `prefix_of`
    [CreateTable;
     Upsert PING_KEY (JObj {[ "stamp" := JStr (pretty (Date_now h)) ]});
     SelectValue PING_KEY]
  /\ (forall v, Upsert STORAGE_KEY v ∉ issued (handler rt D h req s))
  /\ forall t : option (gmap string json),
       stored (final (handler rt ideal h req t)) STORAGE_KEY = stored t STORAGE_KEY.
Proof.
  intros Hpost Hping.
  assert (Hprefix : forall (D' : driver) (s' : db D'),
    issued (handler rt D' h req s') `prefix_of`
      [CreateTable;
       Upsert PING_KEY (JObj {[ "stamp" := JStr (pretty (Date_now h)) ]});
       SelectValue PING_KEY]).
  { intros D' s'. unfold handler, issued.
    destruct (diag_requested rt req) eqn:Hdiag.
    { unfold handler_try. rewrite Hdiag. apply prefix_nil. }
    destruct (hasPostgresEnv (process_env h)) eqn:Henv;
      [|unfold handler_try; rewrite Hdiag, Henv; apply prefix_nil].
    rewrite (handler_try_configured _ _ _ Hdiag Henv).
    rewrite Hpost, guard_prop_truthy, Hping. cbn [String.eqb Ascii.eqb Bool.eqb].
    change (stamp_of h) with (pretty (Date_now h)).
    destruct (exec D' CreateTable s') as [[e|r0] s1] eqn:E0.
    { rewrite (run_rejected _ _ _ _ _ _ _ E0). by eexists. }
    rewrite (run_resolved _ _ _ _ _ _ _ E0).
    destruct (exec D' (Upsert PING_KEY (JObj {[ "stamp" := JStr (pretty (Date_now h)) ]})) s1)
      as [[e|r1] s2] eqn:E1.
    { rewrite (run_rejected _ _ _ _ _ _ _ E1). by eexists. }
    rewrite (run_resolved _ _ _ _ _ _ _ E1).
    destruct (exec D' (SelectValue PING_KEY) s2) as [[e|rows] s3] eqn:E2.
    { rewrite (run_rejected _ _ _ _ _ _ _ E2). by eexists. }
    rewrite (run_resolved _ _ _ _ _ _ _ E2). by eexists. }
  split; [apply Hprefix|]. split.
  - intros v Hin. apply (prefix_elem_of _ _ _ (Hprefix D s)) in Hin.
    rewrite !elem_of_cons, elem_of_nil in Hin.
    destruct Hin as [[=]|[[=]|[[=]|[]]]].
  - intros t. unfold handler.
    destruct (diag_requested rt req) eqn:Hdiag.
    { unfold handler_try. by rewrite Hdiag. }
    destruct (hasPostgresEnv (process_env h)) eqn:Henv;
      [|unfold handler_try; by rewrite Hdiag, Henv].
    rewrite (handler_try_configured _ _ _ Hdiag Henv).
    rewrite Hpost, guard_prop_truthy, Hping.
    destruct t as [rows|]; simpl.
    + apply lookup_insert_ne, keys_differ.
    + by rewrite lookup_insert_ne by apply keys_differ.
Qed.

(** ** Writing and reading the stored document *)

Lemma parseBody_object (rt : runtime) (req : request) (fields : gmap string json) :
  req_body req = Some (JObj fields) -> parseBody rt req = JObj fields.
Proof. unfold parseBody. by intros ->. Qed.

Lemma parseBody_text (rt : runtime) (req : request) (s : string) (v : json) :
  req_body req = Some (JStr s) -> s <> "" -> JSON_parse rt s = Some v ->
  parseBody rt req = v.
Proof.
  unfold parseBody. intros -> Hs Hv. by rewrite (string_eqb_false _ _ Hs), Hv.
Qed.

Lemma parseBody_malformed (rt : runtime) (req : request) (s : string) :
  req_body req = Some (JStr s) -> s <> "" -> JSON_parse rt s = None ->
  parseBody rt req = empty_object.
Proof.
  unfold parseBody. intros -> Hs Hv. by rewrite (string_eqb_false _ _ Hs), Hv.
Qed.

Lemma post_kv_object (fields V : gmap string json) :
  fields !! "kv" = Some (JObj V) -> post_kv (JObj fields) = JObj V.
Proof. unfold post_kv. simpl. by intros ->. Qed.

(** C1: in a configured environment, on a database that behaves as
    specified (whatever it holds, the table present or not), a POST that is
    not diagnostic and whose body is [{kv:V}] for a JSON object [V], given
    as a structured object or as a JSON text, is answered 200 [{ok:true}]
    and leaves [V] under STORAGE_KEY; the GET that follows is answered 200
    [{ok:true, kv:V}]. *)
Theorem post_then_get_roundtrip (rt : runtime) (h1 h2 : host)
    (post get : request) (V : gmap string json) (t : option (gmap string json)) :
  hasPostgresEnv (process_env h1) = true ->
  hasPostgresEnv (process_env h2) = true ->
  diag_requested rt post = false ->
  diag_requested rt get = false ->
  req_method post = "POST" ->
  (req_body post = Some (JObj {[ "kv" := JObj V ]})
   \/ exists text,
        req_body post = Some (JStr text) /\ text <> ""
        /\ JSON_parse rt text = Some (JObj {[ "kv" := JObj V ]})) ->
  req_method get = "GET" ->
  result (handler rt ideal h1 post t) =
    {| status := 200; headers := [no_store]; body := JObj {[ "ok" := JBool true ]} |}
  /\ stored (final (handler rt ideal h1 post t)) STORAGE_KEY = Some (JObj V)
  /\ result (handler rt ideal h2 get (final (handler rt ideal h1 post t))) =
       {| status := 200;
          headers := [no_store];
          body := JObj {[ "ok" := JBool true; "kv" := JObj V ]} |}.
Proof.
  intros Henv1 Henv2 Hdiag1 Hdiag2 Hpost Hraw Hget.
  assert (Hbody : parseBody rt post = JObj {[ "kv" := JObj V ]}).
  { destruct Hraw as [Hobj|(text & Htext & Hne & Hparse)].
    - by apply parseBody_object.
    - by apply (parseBody_text _ _ text). }
  assert (Hfinal : exists rows, final (handler rt ideal h1 post t) = Some rows
                                /\ rows !! STORAGE_KEY = Some (JObj V)
                                /\ result (handler rt ideal h1 post t) = ok_response).
  { unfold handler. rewrite (handler_try_configured _ _ _ Hdiag1 Henv1).
    rewrite Hpost, Hbody, guard_prop_truthy.
    rewrite (post_kv_object _ V) by apply lookup_singleton_eq.
    destruct t as [rows|]; simpl; eexists; (split; [reflexivity|]);
      by rewrite lookup_insert_eq. }
  destruct Hfinal as (rows & Hfinal & Hrow & Hres).
  split; [done|]. rewrite Hfinal. split; [done|].
  unfold handler. rewrite (handler_try_configured _ _ _ Hdiag2 Henv2).
  rewrite Hget. simpl. rewrite Hrow. reflexivity.
Qed.

Lemma post_kv_spec (body : json) : post_kv body = kv_if_object_or_array body.
Proof.
  unfold post_kv, kv_if_object_or_array, guard.
  destruct (truthy body) eqn:Eb.
  - destruct (get_prop body "kv") as [kv|]; [|done].
    simpl. destruct kv as [|b|n|s| |]; simpl; try done.
    + by destruct b.
    + destruct (n =? 0) eqn:En; simpl; [by rewrite En|done].
    + destruct (String.eqb s "") eqn:Es; simpl; [by rewrite Es|done].
  - rewrite (falsy_no_prop _ _ Eb). simpl. rewrite Eb. simpl. by rewrite Eb.
Qed.

(** C4, as the code has it: for a POST that is not diagnostic, in a
    configured environment, whose parsed body has no truthy [ping], once
    the schema statement has resolved the handler upserts under STORAGE_KEY
    the value of [body.kv] when that is a JSON object or a JSON array, and
    the empty object in every other case (no [kv], [null], a boolean, a
    number, a string, or a body that is not an object); when the upsert
    resolves the response is 200 [{ok:true}].  A body that is a text
    JSON.parse refuses is parsed as the empty object, so the empty object
    is what is stored. *)
Theorem data_post_stores_kv (rt : runtime) (D : driver) (h : host)
    (req : request) (s s1 : db D) (r0 : jsval) :
  diag_requested rt req = false ->
  hasPostgresEnv (process_env h) = true ->
  req_method req = "POST" ->
  truthy_val (get_prop (parseBody rt req) "ping") = false ->
  exec D CreateTable s = (inr r0, s1) ->
  issued (handler rt D h req s) =
    [CreateTable; Upsert STORAGE_KEY (kv_if_object_or_array (parseBody rt req))]
  /\ (forall r1 s2,
        exec D (Upsert STORAGE_KEY (kv_if_object_or_array (parseBody rt req))) s1
          = (inr r1, s2) ->
        result (handler rt D h req s) =
          {| status := 200; headers := [no_store]; body := JObj {[ "ok" := JBool true ]} |}
        /\ final (handler rt D h req s) = s2)
  /\ (forall V, get_prop (parseBody rt req) "kv" = Some (JObj V) ->
        kv_if_object_or_array (parseBody rt req) = JObj V)
  /\ (forall items, get_prop (parseBody rt req) "kv" = Some (JArr items) ->
        kv_if_object_or_array (parseBody rt req) = JArr items)
  /\ ((forall V, get_prop (parseBody rt req) "kv" <> Some (JObj V)) ->
      (forall items, get_prop (parseBody rt req) "kv" <> Some (JArr items)) ->
      kv_if_object_or_array (parseBody rt req) = empty_object)
  /\ (forall text,
        req_body req = Some (JStr text) -> text <> "" -> JSON_parse rt text = None ->
        parseBody rt req = empty_object
        /\ kv_if_object_or_array (parseBody rt req) = empty_object).
Proof.
  intros Hdiag Henv Hpost Hping E0. unfold handler, issued.
  rewrite (handler_try_configured _ _ _ Hdiag Henv).
  rewrite (run_resolved _ _ _ _ _ _ _ E0).
  rewrite Hpost, guard_prop_truthy, Hping, post_kv_spec. cbn [String.eqb Ascii.eqb Bool.eqb].
  split; [|split; [|split; [|split; [|split]]]].
  - destruct (exec D (Upsert STORAGE_KEY (kv_if_object_or_array (parseBody rt req))) s1)
      as [[e|r1] s2] eqn:E1.
    + by rewrite (run_rejected _ _ _ _ _ _ _ E1).
    + by rewrite (run_resolved _ _ _ _ _ _ _ E1).
  - intros r1 s2 E1. by rewrite (run_resolved _ _ _ _ _ _ _ E1).
  - intros V Hkv. unfold kv_if_object_or_array. by rewrite Hkv.
  - intros items Hkv. unfold kv_if_object_or_array. by rewrite Hkv.
  - intros Hobj Harr. unfold kv_if_object_or_array.
    destruct (get_prop (parseBody rt req) "kv") as [[| | | |items|V]|]; try done.
    + by destruct (Harr items).
    + by destruct (Hobj V).
  - intros text Hbody Htext Hparse.
    by rewrite (parseBody_malformed _ _ _ Hbody Htext Hparse).
Qed.

(** C4, against the claim: a POST whose [kv] is the array [[1, 2]] stores
    the array, where the claim has the empty object stored. *)
Lemma array_kv_is_stored :
  issued (handler sample_runtime ideal configured_host array_post None)
    = [CreateTable; Upsert STORAGE_KEY (JArr [JNum 1; JNum 2])]
  /\ stored (final (handler sample_runtime ideal configured_host array_post None)) STORAGE_KEY
     = Some (JArr [JNum 1; JNum 2])
  /\ kv_if_object (parseBody sample_runtime array_post) = empty_object
  /\ JArr [JNum 1; JNum 2] <> empty_object.
Proof. repeat split; try reflexivity. discriminate. Qed.

(** ** The error boundary *)

(** A rejected statement ends the run with its error. *)
Lemma run_rejection_result (D : driver) (A : Type) (p : prog A) :
  forall (s : db D) (q : stmt) (e : js_error),
    (q, inl e) ∈ log (run D p s) -> result (run D p s) = inl e.
Proof.
  induction p as [a|q0 k IH]; intros s q e Hin; simpl in *.
  - by apply elem_of_nil in Hin.
  - destruct (exec D q0 s) as [[e0|rows] s']; simpl in *.
    + apply list_elem_of_singleton in Hin. by injection Hin as _ ->.
    + apply elem_of_cons in Hin as [[=]|Hin]. by apply (IH rows s' q e).
Qed.

(** A run ends with an error only where its last statement was rejected
    with it: nothing but a statement throws in the [try] block. *)
Lemma run_error_origin (D : driver) (A : Type) (p : prog A) :
  forall (s : db D) (e : js_error),
    result (run D p s) = inl e -> exists q, last (log (run D p s)) = Some (q, inl e).
Proof.
  induction p as [a|q0 k IH]; intros s e Hres; simpl in *; [done|].
  destruct (exec D q0 s) as [[e0|rows] s']; simpl in *.
  - injection Hres as ->. by eexists.
  - destruct (IH rows s' e Hres) as [q Hq]. exists q.
    destruct (log (run D (k rows) s')); [done|]. by rewrite last_cons, Hq.
Qed.

Lemma run_all_returns (D : driver) (A : Type) (P : A -> Prop) (p : prog A) :
  all_returns P p ->
  forall (s : db D) (a : A), result (run D p s) = inr a -> P a.
Proof.
  induction p as [a0|q0 k IH]; intros Hall s a Hres; simpl in *.
  - by injection Hres as <-.
  - destruct (exec D q0 s) as [[e0|rows] s']; simpl in *; [done|].
    by apply (IH rows (Hall rows) s').
Qed.

Lemma handler_try_statuses (rt : runtime) (h : host) (req : request) :
  all_returns (fun r => status r ∈ [200; 405; 500; 503]) (handler_try rt h req).
Proof.
  destruct (diag_requested rt req) eqn:Hdiag.
  { unfold handler_try. rewrite Hdiag. simpl. set_solver. }
  destruct (hasPostgresEnv (process_env h)) eqn:Henv;
    [|unfold handler_try; rewrite Hdiag, Henv; simpl; set_solver].
  rewrite (handler_try_configured _ _ _ Hdiag Henv). simpl. intros _.
  destruct (String.eqb (req_method req) "GET"); simpl; [set_solver|].
  destruct (String.eqb (req_method req) "POST"); simpl; [|set_solver].
  destruct (truthy_val _); simpl; [|set_solver].
  intros _ rows. destruct (stamp_matches rows (stamp_of h)); set_solver.
Qed.

(** C7, as the code has it: for every request, driver and database state
    the handler gives a response, with status 200, 405, 500 or 503.  If any
    statement awaited (the schema statement, a select or an upsert) is
    rejected with an error, the response is 500 with the body [{ok:false,
    error, details:{code, name}}], [error] being the message of the error
    or "server_error", and [code] and [name] those of the error where it
    has them.  A text JSON.parse refuses and a URL the constructor refuses
    do not reach that boundary: the first makes the parsed body the empty
    object, the second turns the diagnostic test into the substring
    search. *)
Theorem rejections_become_500 (rt : runtime) (D : driver) (h : host)
    (req : request) (s : db D) :
  (forall q e,
     (q, inl e) ∈ log (handler rt D h req s) ->
     result (handler rt D h req s) = error_response e
     /\ status (error_response e) = 500
     /\ get_prop (body (error_response e)) "ok" = Some (JBool false)
     /\ get_prop (body (error_response e)) "error"
        = Some (JStr (string_or (e_message e) "server_error"))
     /\ exists details,
          get_prop (body (error_response e)) "details" = Some (JObj details)
          /\ details !! "code" = string_or_undefined (e_code e)
          /\ details !! "name" = string_or_undefined (e_name e))
  /\ status (result (handler rt D h req s)) ∈ [200; 405; 500; 503]
  /\ (forall text,
        req_body req = Some (JStr text) -> text <> "" -> JSON_parse rt text = None ->
        parseBody rt req = empty_object)
  /\ (URL_searchParams_get rt (req_url req) "diag" = None ->
      diag_requested rt req =
        negb (String.eqb (req_url req) "")
        && bool_decide (is_Some (String.index 0 "diag=1" (req_url req)))).
Proof.
  split; [|split; [|split]].
  - intros q e Hin. unfold handler in *. simpl in *.
    rewrite (run_rejection_result _ _ _ _ _ _ Hin).
    split; [done|]. split; [done|]. split; [done|]. split; [done|].
    eexists. split; [reflexivity|].
    unfold with_optional.
    destruct (string_or_undefined (e_code e)), (string_or_undefined (e_name e)); done.
  - unfold handler. simpl.
    destruct (result (run D (handler_try rt h req) s)) as [e|r] eqn:Hres.
    + simpl. set_solver.
    + apply (run_all_returns D _ _ _ (handler_try_statuses rt h req) s r Hres).
  - intros text Hbody Htext Hparse. by apply (parseBody_malformed _ _ text).
  - intros Hurl. unfold diag_requested. by rewrite Hurl.
Qed.

(** C7, against the claim: a POST whose body is a text JSON.parse refuses
    is answered 200 [{ok:true}], every statement having resolved; and a
    URL the constructor refuses is answered 200 by the diagnostic path.
    Neither failure of parsing is turned into a 500. *)
Lemma parse_failures_are_not_500 :
  JSON_parse sample_runtime lbrace = None
  /\ result (handler sample_runtime ideal configured_host malformed_post None) = ok_response
  /\ status (result (handler sample_runtime ideal configured_host malformed_post None)) = 200
  /\ log (handler sample_runtime ideal configured_host malformed_post None)
     = [(CreateTable, inr (Some (JArr [])));
        (Upsert STORAGE_KEY empty_object, inr (Some (JArr [])))]
  /\ URL_searchParams_get sample_runtime (req_url malformed_url_get) "diag" = None
  /\ status (result (handler sample_runtime ideal configured_host malformed_url_get None))
     = 200.
Proof. repeat split; reflexivity. Qed.

(** * The theorems at sample inputs *)

Lemma module_init_fallback_witness :
  env_truthy {[ "DATABASE_URL" := "postgres://db.example/app" ]} "POSTGRES_URL" = false
  /\ module_init {[ "DATABASE_URL" := "postgres://db.example/app" ]} !! "POSTGRES_URL"
     = Some "postgres://db.example/app"
  /\ hasPostgresEnv (module_init {[ "DATABASE_URL" := "postgres://db.example/app" ]}) = true.
Proof.
  pose proof (module_init_fallback
                {[ "DATABASE_URL" := "postgres://db.example/app" ]}
                "postgres://db.example/app"
                eq_refl eq_refl ltac:(discriminate)) as (H1 & _ & _ & H4 & _).
  split; [reflexivity|]. split; [exact H1|exact H4].
Defined.

Lemma unconfigured_503_witness :
  diag_requested sample_runtime plain_get = false
  /\ hasPostgresEnv (process_env bare_host) = false
  /\ status (result (handler sample_runtime unreachable bare_host plain_get tt)) = 503
  /\ issued (handler sample_runtime unreachable bare_host plain_get tt) = [].
Proof.
  assert (Henv : Forall (fun k => env_truthy (process_env bare_host) k = false)
                   recognized_vars) by (repeat constructor).
  pose proof (unconfigured_503 sample_runtime bare_host plain_get eq_refl Henv)
    as (_ & _ & _ & _ & _ & H).
  destruct (H unreachable tt) as (Hissued & Hresult & _).
  split; [reflexivity|]. split; [reflexivity|].
  split; [by rewrite Hresult|exact Hissued].
Defined.

Lemma diag_short_circuit_witness :
  result (handler sample_runtime unreachable bare_host diag_get tt) = diag_response bare_host
  /\ issued (handler sample_runtime unreachable bare_host diag_get tt) = []
  /\ result (handler sample_runtime unreachable bare_host malformed_url_get tt)
     = diag_response bare_host.
Proof.
  assert (Hquery : (exists v, URL_searchParams_get sample_runtime (req_url diag_get) "diag"
                              = Some (Some v) /\ (v = "1" \/ v = "true"))
                   \/ (URL_searchParams_get sample_runtime (req_url diag_get) "diag" = None
                       /\ is_Some (String.index 0 "diag=1" (req_url diag_get)))).
  { left. exists "1". split; [reflexivity|by left]. }
  assert (Hraw : (exists v, URL_searchParams_get sample_runtime (req_url malformed_url_get) "diag"
                            = Some (Some v) /\ (v = "1" \/ v = "true"))
                 \/ (URL_searchParams_get sample_runtime (req_url malformed_url_get) "diag" = None
                     /\ is_Some (String.index 0 "diag=1" (req_url malformed_url_get)))).
  { right. split; [reflexivity|]. by eexists. }
  pose proof (diag_short_circuit sample_runtime bare_host diag_get Hquery)
    as (_ & _ & _ & _ & H1).
  pose proof (diag_short_circuit sample_runtime bare_host malformed_url_get Hraw)
    as (_ & _ & _ & _ & H2).
  destruct (H1 unreachable tt) as (Hissued & Hresult & _).
  destruct (H2 unreachable tt) as (_ & Hresult' & _).
  split; [exact Hresult|]. split; [exact Hissued|exact Hresult'].
Defined.

Lemma schema_before_dispatch_witness :
  diag_requested sample_runtime delete_request = false
  /\ hasPostgresEnv (process_env configured_host) = true
  /\ issued (handler sample_runtime unreachable configured_host delete_request tt)
     = [CreateTable]
  /\ status (result (handler sample_runtime unreachable configured_host delete_request tt))
     = 500.
Proof.
  pose proof (schema_before_dispatch sample_runtime unreachable configured_host
                delete_request tt eq_refl eq_refl) as (_ & H).
  destruct (H connection_refused tt eq_refl) as (Hissued & _ & Hstatus & _).
  split; [reflexivity|]. split; [reflexivity|]. split; [exact Hissued|exact Hstatus].
Defined.

Lemma other_methods_405_witness :
  exec ideal CreateTable None = (inr (Some (JArr [])), Some ∅)
  /\ result (handler sample_runtime ideal configured_host delete_request None)
     = method_not_allowed_response
  /\ issued (handler sample_runtime ideal configured_host delete_request None)
     = [CreateTable].
Proof.
  pose proof (other_methods_405 sample_runtime ideal configured_host delete_request
                None eq_refl eq_refl ltac:(discriminate) ltac:(discriminate))
    as (Hissued & Hresolved & _).
  split; [reflexivity|].
  split; [exact (proj1 (Hresolved (Some (JArr [])) (Some ∅) eq_refl))|exact Hissued].
Defined.

Lemma ping_write_then_read_witness :
  truthy_val (get_prop (parseBody sample_runtime ping_post) "ping") = true
  /\ issued (handler sample_runtime ideal configured_host ping_post None)
     = [CreateTable;
        Upsert PING_KEY (JObj {[ "stamp" := JStr "1700000000000" ]});
        SelectValue PING_KEY]
  /\ result (handler sample_runtime ideal configured_host ping_post None)
     = {| status := 200; headers := [no_store]; body := JObj {[ "ok" := JBool true ]} |}.
Proof.
  pose proof (ping_write_then_read sample_runtime ideal configured_host ping_post
                None (Some ∅)
                (Some {[ PING_KEY := JObj {[ "stamp" := JStr "1700000000000" ]} ]})
                (Some {[ PING_KEY := JObj {[ "stamp" := JStr "1700000000000" ]} ]})
                (Some (JArr [])) (Some (JArr []))
                (inr (Some (JArr [JObj {[ "value" :=
                                           JObj {[ "stamp" := JStr "1700000000000" ]} ]}])))
                eq_refl eq_refl eq_refl eq_refl eq_refl eq_refl eq_refl)
    as (Hissued & _ & Hok & _).
  split; [reflexivity|]. split; [exact Hissued|].
  apply Hok. eexists. split; reflexivity.
Defined.

Lemma ping_takes_precedence_witness :
  truthy_val (get_prop (parseBody sample_runtime ping_with_kv) "ping") = true
  /\ get_prop (parseBody sample_runtime ping_with_kv) "kv" = Some (JObj {[ "a" := JNum 1 ]})
  /\ stored (final (handler sample_runtime ideal configured_host ping_with_kv
                      table_with_document)) STORAGE_KEY
     = Some (JObj {[ "old" := JNum 7 ]}).
Proof.
  pose proof (ping_takes_precedence sample_runtime ideal configured_host ping_with_kv
                table_with_document eq_refl eq_refl) as (_ & _ & H).
  split; [reflexivity|]. split; [reflexivity|].
  exact (H table_with_document).
Defined.

Lemma post_then_get_roundtrip_witness :
  req_body kv_post = Some (JObj {[ "kv" := JObj {[ "a" := JNum 1 ]} ]})
  /\ result (handler sample_runtime ideal configured_host plain_get
               (final (handler sample_runtime ideal configured_host kv_post
                         table_with_document)))
     = {| status := 200;
          headers := [no_store];
          body := JObj {[ "ok" := JBool true; "kv" := JObj {[ "a" := JNum 1 ]} ]} |}.
Proof.
  pose proof (post_then_get_roundtrip sample_runtime configured_host configured_host
                kv_post plain_get {[ "a" := JNum 1 ]} table_with_document
                eq_refl eq_refl eq_refl eq_refl eq_refl (or_introl eq_refl) eq_refl)
    as (_ & _ & H).
  split; [reflexivity|exact H].
Defined.

Lemma data_post_stores_kv_witness :
  JSON_parse sample_runtime lbrace = None
  /\ issued (handler sample_runtime ideal configured_host malformed_post None)
     = [CreateTable; Upsert STORAGE_KEY empty_object]
  /\ issued (handler sample_runtime ideal configured_host kv_post None)
     = [CreateTable; Upsert STORAGE_KEY (JObj {[ "a" := JNum 1 ]})].
Proof.
  pose proof (data_post_stores_kv sample_runtime ideal configured_host malformed_post
                None (Some ∅) (Some (JArr []))
                eq_refl eq_refl eq_refl eq_refl eq_refl) as (H1 & _).
  pose proof (data_post_stores_kv sample_runtime ideal configured_host kv_post
                None (Some ∅) (Some (JArr []))
                eq_refl eq_refl eq_refl eq_refl eq_refl) as (H2 & _).
  split; [reflexivity|]. split; [exact H1|exact H2].
Defined.

Lemma rejections_become_500_witness :
  (CreateTable, inl connection_refused)
    ∈ log (handler sample_runtime unreachable configured_host plain_get tt)
  /\ result (handler sample_runtime unreachable configured_host plain_get tt)
     = error_response connection_refused
  /\ status (result (handler sample_runtime unreachable configured_host plain_get tt))
     ∈ [200; 405; 500; 503].
Proof.
  pose proof (rejections_become_500 sample_runtime unreachable configured_host
                plain_get tt) as (H & Hstatus & _).
  assert (Hin : (CreateTable, inl connection_refused)
                  ∈ log (handler sample_runtime unreachable configured_host plain_get tt))
    by (apply list_elem_of_singleton; reflexivity).
  split; [exact Hin|]. split; [exact (proj1 (H _ _ Hin))|exact Hstatus].
Defined.

(** * Further properties *)

(** ** Module initialisation *)

Lemma env_truthy_insert_eq (env : gmap string string) (k v : string) :
  env_truthy (<[k := v]> env) k = negb (String.eqb v "").
Proof. unfold env_truthy. by rewrite lookup_insert_eq. Qed.

Lemma env_truthy_insert_ne (env : gmap string string) (k k' v : string) :
  k <> k' -> env_truthy (<[k := v]> env) k' = env_truthy env k'.
Proof. intros Hk. unfold env_truthy. by rewrite lookup_insert_ne. Qed.

(** What [module_init] does, by cases on the two variables it reads. *)
Lemma module_init_cases (env : gmap string string) :
  (env_truthy env "POSTGRES_URL" = false
   /\ exists v, env !! "DATABASE_URL" = Some v /\ String.eqb v "" = false
                /\ module_init env = <["POSTGRES_URL" := v]> env)
  \/ ((env_truthy env "POSTGRES_URL" = true \/ env_truthy env "DATABASE_URL" = false)
      /\ module_init env = env).
Proof.
  unfold module_init.
  destruct (env_truthy env "POSTGRES_URL") eqn:Hp; simpl.
  { right. split; [by left|done]. }
  destruct (env_truthy env "DATABASE_URL") eqn:Hd.
  - left. split; [done|]. unfold env_truthy in Hd.
    destruct (env !! "DATABASE_URL") as [v|]; [|done].
    exists v. apply negb_true_iff in Hd. done.
  - right. split; [by right|done].
Qed.

(** X1: module initialisation never overwrites a primary variable that is
    set, and does nothing when the fallback is absent or empty: in both
    cases the environment is left exactly as it was. *)
Theorem module_init_unchanged (env : gmap string string) :
  env_truthy env "POSTGRES_URL" = true \/ env_truthy env "DATABASE_URL" = false ->
  module_init env = env.
Proof.
  intros H. destruct (module_init_cases env) as [(Hp & v & Hv & Hne & _)|[_ Heq]]; [|done].
  destruct H as [H|H]; [congruence|].
  unfold env_truthy in H. rewrite Hv, Hne in H. done.
Qed.

(** X2: module initialisation is idempotent: loading the module a second
    time changes nothing. *)
Theorem module_init_idempotent (env : gmap string string) :
  module_init (module_init env) = module_init env.
Proof.
  destruct (module_init_cases env) as [(Hp & v & Hv & Hne & ->)|[_ Heq]];
    [|by rewrite !Heq].
  destruct (module_init_cases (<["POSTGRES_URL" := v]> env))
    as [(Hp' & _)|[_ Heq]]; [|done].
  rewrite env_truthy_insert_eq, Hne in Hp'. done.
Qed.

(** X3: after module initialisation the primary variable is non-empty
    exactly when the primary or the fallback was non-empty before, and
    every other variable is as before. *)
Theorem module_init_primary (env : gmap string string) :
  env_truthy (module_init env) "POSTGRES_URL"
    = env_truthy env "POSTGRES_URL" || env_truthy env "DATABASE_URL"
  /\ forall k, k <> "POSTGRES_URL" -> module_init env !! k = env !! k.
Proof.
  split.
  - destruct (module_init_cases env) as [(Hp & v & Hv & Hne & ->)|[[H|H] ->]].
    + rewrite env_truthy_insert_eq, Hp, Hne. unfold env_truthy. by rewrite Hv, Hne.
    + by rewrite H.
    + by rewrite H, orb_false_r.
  - intros k Hk.
    destruct (module_init_cases env) as [(_ & v & _ & _ & ->)|[_ ->]]; [|done].
    by rewrite lookup_insert_ne.
Qed.

(** X4: module initialisation does not change whether the environment
    counts as configured. *)
Theorem module_init_hasPostgresEnv (env : gmap string string) :
  hasPostgresEnv (module_init env) = hasPostgresEnv env.
Proof.
  destruct (module_init_cases env) as [(Hp & v & Hv & Hne & ->)|[_ ->]]; [|done].
  unfold hasPostgresEnv.
  rewrite env_truthy_insert_eq, !env_truthy_insert_ne by done.
  rewrite Hp, Hne. simpl.
  assert (Hd : env_truthy env "DATABASE_URL" = true).
  { unfold env_truthy. by rewrite Hv, Hne. }
  by rewrite Hd, !orb_true_r.
Qed.

(** ** Every response *)

Ltac await D q s E :=
  let e := fresh "e" in
  let r := fresh "r" in
  let s' := fresh "s" in
  destruct (exec D q s) as [[e|r] s'] eqn:E;
  [rewrite (run_rejected _ _ _ _ _ _ _ E)|rewrite (run_resolved _ _ _ _ _ _ _ E)].

Ltac rejection_in_log :=
  simpl; repeat first [apply list_elem_of_here|apply list_elem_of_further].

Lemma handler_no_database (rt : runtime) (D : driver) (h : host) (req : request)
    (s : db D) :
  diag_requested rt req = true \/ hasPostgresEnv (process_env h) = false ->
  handler rt D h req s =
    {| log := [];
       result := if diag_requested rt req then diag_response h
                 else not_configured_response;
       final := s |}.
Proof.
  intros H. unfold handler, handler_try.
  destruct (diag_requested rt req); [done|].
  destruct H as [H|H]; [done|]. by rewrite H.
Qed.

(** The response of a run, by the path taken. *)
Lemma result_cases (rt : runtime) (D : driver) (h : host) (req : request) (s : db D) :
  (diag_requested rt req = true /\ result (handler rt D h req s) = diag_response h)
  \/ (diag_requested rt req = false /\ hasPostgresEnv (process_env h) = false
      /\ result (handler rt D h req s) = not_configured_response)
  \/ (diag_requested rt req = false /\ hasPostgresEnv (process_env h) = true
      /\ ((exists q e, (q, inl e) ∈ log (handler rt D h req s)
                       /\ result (handler rt D h req s) = error_response e)
          \/ (req_method req = "GET"
              /\ exists rows, result (handler rt D h req s) = get_response rows)
          \/ (req_method req = "POST"
              /\ exists ok, result (handler rt D h req s) = ping_response ok)
          \/ (req_method req = "POST"
              /\ result (handler rt D h req s) = ok_response)
          \/ (req_method req <> "GET" /\ req_method req <> "POST"
              /\ result (handler rt D h req s) = method_not_allowed_response))).
Proof.
  destruct (diag_requested rt req) eqn:Hdiag.
  { left. split; [done|]. rewrite handler_no_database by by left. by rewrite Hdiag. }
  destruct (hasPostgresEnv (process_env h)) eqn:Henv.
  2:{ right. left. rewrite handler_no_database by by right. by rewrite Hdiag. }
  right. right. split; [done|]. split; [done|].
  unfold handler. rewrite (handler_try_configured _ _ _ Hdiag Henv).
  await D CreateTable s E0.
  { left. eexists _, _. split; [rejection_in_log|done]. }
  destruct (String.eqb (req_method req) "GET") eqn:Hget.
  { apply String.eqb_eq in Hget.
    await D (SelectValue STORAGE_KEY) s0 E1.
    - left. eexists _, _. split; [rejection_in_log|done].
    - right. left. split; [done|]. by eexists. }
  apply String.eqb_neq in Hget.
  destruct (String.eqb (req_method req) "POST") eqn:Hpost.
  2:{ apply String.eqb_neq in Hpost. do 4 right. done. }
  apply String.eqb_eq in Hpost.
  destruct (truthy_val _).
  - await D (Upsert PING_KEY (JObj {[ "stamp" := JStr (stamp_of h) ]})) s0 E1.
    { left. eexists _, _. split; [rejection_in_log|done]. }
    await D (SelectValue PING_KEY) s1 E2.
    { left. eexists _, _. split; [rejection_in_log|done]. }
    right. right. left. split; [done|]. by eexists.
  - await D (Upsert STORAGE_KEY (post_kv (parseBody rt req))) s0 E1.
    { left. eexists _, _. split; [rejection_in_log|done]. }
    do 3 right. left. done.
Qed.

(** X5: every response carries the header [Cache-Control: no-store] and
    nothing else, except the 405, which carries [Allow: GET, POST] and no
    cache directive. *)
Theorem response_headers (rt : runtime) (D : driver) (h : host) (req : request)
    (s : db D) :
  (status (result (handler rt D h req s)) = 405
   /\ headers (result (handler rt D h req s)) = [("Allow", "GET, POST")])
  \/ (status (result (handler rt D h req s)) <> 405
      /\ headers (result (handler rt D h req s)) = [("Cache-Control", "no-store")]).
Proof.
  destruct (result_cases rt D h req s)
    as [[_ ->]|[(_ & _ & ->)|(_ & _ & [(q & e & _ & ->)|[(_ & rows & ->)|
       [(_ & ok & ->)|[(_ & ->)|(_ & _ & ->)]]]])]];
    try (right; split; [done|reflexivity]).
  - right. split; [by destruct ok|reflexivity].
  - left. done.
Qed.

(** X6: the [ok] field of every response body tells whether the status is
    200. *)
Theorem ok_field_tracks_status (rt : runtime) (D : driver) (h : host)
    (req : request) (s : db D) :
  get_prop (body (result (handler rt D h req s))) "ok"
    = Some (JBool (status (result (handler rt D h req s)) =? 200)).
Proof.
  destruct (result_cases rt D h req s)
    as [[_ ->]|[(_ & _ & ->)|(_ & _ & [(q & e & _ & ->)|[(_ & rows & ->)|
       [(_ & ok & ->)|[(_ & ->)|(_ & _ & ->)]]]])]];
    try reflexivity.
  by destruct ok.
Qed.

(** X7: what a status tells the client.  503 is sent only to a request that
    is not diagnostic in an environment that is not configured; 405 only
    for a method other than GET and POST, in a configured environment; and
    a 200 is never sent after a statement was rejected. *)
Theorem status_meaning (rt : runtime) (D : driver) (h : host) (req : request)
    (s : db D) :
  (status (result (handler rt D h req s)) = 503 ->
     diag_requested rt req = false /\ hasPostgresEnv (process_env h) = false)
  /\ (status (result (handler rt D h req s)) = 405 ->
        diag_requested rt req = false /\ hasPostgresEnv (process_env h) = true
        /\ req_method req <> "GET" /\ req_method req <> "POST")
  /\ (status (result (handler rt D h req s)) = 200 ->
        forall q e, (q, inl e) ∉ log (handler rt D h req s)).
Proof.
  split; [|split].
  - destruct (result_cases rt D h req s)
      as [[_ ->]|[(? & ? & ->)|(_ & _ & [(q & e & _ & ->)|[(_ & rows & ->)|
         [(_ & ok & ->)|[(_ & ->)|(_ & _ & ->)]]]])]]; try done.
    by destruct ok.
  - destruct (result_cases rt D h req s)
      as [[_ ->]|[(? & ? & ->)|(? & ? & [(q & e & _ & ->)|[(_ & rows & ->)|
         [(_ & ok & ->)|[(_ & ->)|(? & ? & ->)]]]])]]; try done.
    by destruct ok.
  - intros Hstatus q e Hin. unfold handler in *. simpl in *.
    rewrite (run_rejection_result _ _ _ _ _ _ Hin) in Hstatus. done.
Qed.

(** ** Reading *)

Lemma get_kv_truthy (rows : jsval) : truthy (get_kv rows) = true.
Proof.
  unfold get_kv. destruct (first_value rows) as [v|] eqn:E; simpl; [|done].
  by destruct (truthy v) eqn:Ev.
Qed.

Lemma first_value_row (row : gmap string json) (rest : list json) :
  first_value (Some (JArr (JObj row :: rest))) = row !! "value".
Proof. reflexivity. Qed.

(** X8: the [kv] a GET answers with is never falsy.  Once the schema
    statement and the select have resolved, the response is 200
    [{ok:true, kv}] where [kv] is the [value] of the first row when that is
    truthy, and the empty object when there is no row, when [rows] is
    missing, or when the stored value is [null], [false], 0 or the empty
    string. *)
Theorem get_kv_never_falsy (rt : runtime) (D : driver) (h : host) (req : request)
    (s s1 s2 : db D) (r0 rows : jsval) :
  diag_requested rt req = false ->
  hasPostgresEnv (process_env h) = true ->
  req_method req = "GET" ->
  exec D CreateTable s = (inr r0, s1) ->
  exec D (SelectValue STORAGE_KEY) s1 = (inr rows, s2) ->
  exists kv,
    result (handler rt D h req s) =
      {| status := 200;
         headers := [no_store];
         body := JObj {[ "ok" := JBool true; "kv" := kv ]} |}
    /\ truthy kv = true
    /\ (rows = None \/ rows = Some (JArr []) -> kv = empty_object)
    /\ (forall row rest v,
          rows = Some (JArr (JObj row :: rest)) -> row !! "value" = Some v ->
          kv = if truthy v then v else empty_object)
    /\ (forall row rest,
          rows = Some (JArr (JObj row :: rest)) -> row !! "value" = None ->
          kv = empty_object).
Proof.
  intros Hdiag Henv Hget E0 E1. exists (get_kv rows).
  split.
  { unfold handler. rewrite (handler_try_configured _ _ _ Hdiag Henv), Hget.
    rewrite (run_resolved _ _ _ _ _ _ _ E0). cbn [String.eqb Ascii.eqb Bool.eqb].
    by rewrite (run_resolved _ _ _ _ _ _ _ E1). }
  split; [apply get_kv_truthy|]. split; [|split].
  - by intros [-> | ->].
  - intros row rest v -> Hv. unfold get_kv. rewrite first_value_row, Hv. simpl.
    by destruct (truthy v).
  - intros row rest -> Hv. unfold get_kv. by rewrite first_value_row, Hv.
Qed.

(** ** The statements of a run *)

(** The statements issued, by the path taken. *)
Lemma issued_cases (rt : runtime) (D : driver) (h : host) (req : request) (s : db D) :
  issued (handler rt D h req s) = []
  \/ issued (handler rt D h req s) = [CreateTable]
  \/ (req_method req = "GET"
      /\ issued (handler rt D h req s) = [CreateTable; SelectValue STORAGE_KEY])
  \/ (req_method req = "POST"
      /\ exists v,
           issued (handler rt D h req s) = [CreateTable; Upsert PING_KEY v]
           \/ issued (handler rt D h req s)
              = [CreateTable; Upsert PING_KEY v; SelectValue PING_KEY]
           \/ issued (handler rt D h req s) = [CreateTable; Upsert STORAGE_KEY v]).
Proof.
  destruct (diag_requested rt req) eqn:Hdiag.
  { left. unfold issued. by rewrite handler_no_database by by left. }
  destruct (hasPostgresEnv (process_env h)) eqn:Henv.
  2:{ left. unfold issued. by rewrite handler_no_database by by right. }
  unfold handler, issued. rewrite (handler_try_configured _ _ _ Hdiag Henv).
  await D CreateTable s E0; [by right; left|].
  destruct (String.eqb (req_method req) "GET") eqn:Hget.
  { apply String.eqb_eq in Hget.
    await D (SelectValue STORAGE_KEY) s0 E1; right; right; left; done. }
  destruct (String.eqb (req_method req) "POST") eqn:Hpost; [|by right; left].
  apply String.eqb_eq in Hpost. do 3 right. split; [done|].
  destruct (truthy_val _).
  - exists (JObj {[ "stamp" := JStr (stamp_of h) ]}).
    await D (Upsert PING_KEY (JObj {[ "stamp" := JStr (stamp_of h) ]})) s0 E1;
      [by left|].
    await D (SelectValue PING_KEY) s1 E2; by right; left.
  - exists (post_kv (parseBody rt req)).
    await D (Upsert STORAGE_KEY (post_kv (parseBody rt req))) s0 E1; by right; right.
Qed.

(** X9: whatever the request and the driver, the handler issues at most
    three statements; if it issues any, the first is the schema statement;
    at most one of them is an upsert; and the only keys they name are
    STORAGE_KEY and PING_KEY. *)
Theorem statement_discipline (rt : runtime) (D : driver) (h : host)
    (req : request) (s : db D) :
  (length (issued (handler rt D h req s)) <= 3)%nat
  /\ (issued (handler rt D h req s) = []
      \/ head (issued (handler rt D h req s)) = Some CreateTable)
  /\ (length (List.filter is_upsert (issued (handler rt D h req s))) <= 1)%nat
  /\ Forall (fun q => stmt_key q = None \/ stmt_key q = Some STORAGE_KEY
                      \/ stmt_key q = Some PING_KEY)
       (issued (handler rt D h req s)).
Proof.
  destruct (issued_cases rt D h req s)
    as [->|[->|[[_ ->]|(_ & v & [->|[->| ->]])]]]; simpl;
    (split; [lia|]); (split; [by auto|]); (split; [lia|]);
    repeat (apply Forall_cons; split; [simpl; auto|]); by apply Forall_nil.
Qed.

(** X10: a request whose method is not POST never writes: no upsert is
    among the statements it issues, on any driver. *)
Theorem only_post_writes (rt : runtime) (D : driver) (h : host) (req : request)
    (s : db D) :
  req_method req <> "POST" ->
  Forall (fun q => is_upsert q = false) (issued (handler rt D h req s)).
Proof.
  intros Hpost.
  destruct (issued_cases rt D h req s)
    as [->|[->|[[_ ->]|(Hp & _)]]]; [repeat constructor..|done].
Qed.

(** ** On a database that behaves as specified *)

Lemma stored_created (t : option (gmap string json)) (k : string) :
  created t !! k = stored t k.
Proof. by destruct t. Qed.

Lemma ideal_create (t : option (gmap string json)) :
  exec ideal CreateTable t = (inr (Some (JArr [])), Some (created t)).
Proof. by destruct t. Qed.

Lemma ideal_select (rows : gmap string json) (k : string) :
  exec ideal (SelectValue k) (Some rows) = (inr (rows_of (rows !! k)), Some rows).
Proof. reflexivity. Qed.

Lemma ideal_upsert (rows : gmap string json) (k : string) (v : json) :
  exec ideal (Upsert k v) (Some rows) = (inr (Some (JArr [])), Some (<[k := v]> rows)).
Proof. reflexivity. Qed.

Lemma get_kv_rows_of (v : jsval) :
  get_kv (rows_of v) = match v with
                       | Some j => if truthy j then j else empty_object
                       | None => empty_object
                       end.
Proof.
  destruct v as [j|]; [|done].
  unfold get_kv, rows_of. rewrite first_value_row, lookup_singleton_eq. simpl.
  by destruct (truthy j).
Qed.

Lemma stamp_matches_rows_of (stamp : string) :
  stamp_matches (rows_of (Some (JObj {[ "stamp" := JStr stamp ]}))) stamp = true.
Proof.
  apply stamp_matches_spec. unfold reread_stamp, rows_of. simpl.
  rewrite lookup_singleton_eq. simpl. by rewrite lookup_singleton_eq.
Qed.

Lemma post_kv_truthy (b : json) : truthy (post_kv b) = true.
Proof.
  rewrite post_kv_spec. unfold kv_if_object_or_array.
  by destruct (get_prop b "kv") as [[| | | | |]|].
Qed.

Lemma handler_ideal_get (rt : runtime) (h : host) (req : request)
    (t : option (gmap string json)) :
  diag_requested rt req = false ->
  hasPostgresEnv (process_env h) = true ->
  req_method req = "GET" ->
  handler rt ideal h req t =
    {| log := [(CreateTable, inr (Some (JArr [])));
               (SelectValue STORAGE_KEY, inr (rows_of (stored t STORAGE_KEY)))];
       result := get_response (rows_of (stored t STORAGE_KEY));
       final := Some (created t) |}.
Proof.
  intros Hdiag Henv Hget. unfold handler.
  rewrite (handler_try_configured _ _ _ Hdiag Henv), Hget.
  rewrite (run_resolved _ _ _ _ _ _ _ (ideal_create t)).
  cbn [String.eqb Ascii.eqb Bool.eqb].
  rewrite (run_resolved _ _ _ _ _ _ _ (ideal_select _ _)).
  by rewrite stored_created.
Qed.

Lemma handler_ideal_ping (rt : runtime) (h : host) (req : request)
    (t : option (gmap string json)) :
  diag_requested rt req = false ->
  hasPostgresEnv (process_env h) = true ->
  req_method req = "POST" ->
  truthy_val (get_prop (parseBody rt req) "ping") = true ->
  handler rt ideal h req t =
    {| log := [(CreateTable, inr (Some (JArr [])));
               (Upsert PING_KEY (JObj {[ "stamp" := JStr (stamp_of h) ]}),
                inr (Some (JArr [])));
               (SelectValue PING_KEY,
                inr (rows_of (Some (JObj {[ "stamp" := JStr (stamp_of h) ]}))))];
       result := ping_response true;
       final := Some (<[PING_KEY := JObj {[ "stamp" := JStr (stamp_of h) ]}]>
                        (created t)) |}.
Proof.
  intros Hdiag Henv Hpost Hping. unfold handler.
  rewrite (handler_try_configured _ _ _ Hdiag Henv), Hpost, guard_prop_truthy, Hping.
  rewrite (run_resolved _ _ _ _ _ _ _ (ideal_create t)).
  cbn [String.eqb Ascii.eqb Bool.eqb].
  rewrite (run_resolved _ _ _ _ _ _ _ (ideal_upsert _ _ _)).
  rewrite (run_resolved _ _ _ _ _ _ _ (ideal_select _ _)).
  rewrite lookup_insert_eq. simpl. by rewrite stamp_matches_rows_of.
Qed.

Lemma handler_ideal_post (rt : runtime) (h : host) (req : request)
    (t : option (gmap string json)) :
  diag_requested rt req = false ->
  hasPostgresEnv (process_env h) = true ->
  req_method req = "POST" ->
  truthy_val (get_prop (parseBody rt req) "ping") = false ->
  handler rt ideal h req t =
    {| log := [(CreateTable, inr (Some (JArr [])));
               (Upsert STORAGE_KEY (post_kv (parseBody rt req)), inr (Some (JArr [])))];
       result := ok_response;
       final := Some (<[STORAGE_KEY := post_kv (parseBody rt req)]> (created t)) |}.
Proof.
  intros Hdiag Henv Hpost Hping. unfold handler.
  rewrite (handler_try_configured _ _ _ Hdiag Henv), Hpost, guard_prop_truthy, Hping.
  rewrite (run_resolved _ _ _ _ _ _ _ (ideal_create t)).
  cbn [String.eqb Ascii.eqb Bool.eqb].
  by rewrite (run_resolved _ _ _ _ _ _ _ (ideal_upsert _ _ _)).
Qed.

Lemma handler_ideal_other (rt : runtime) (h : host) (req : request)
    (t : option (gmap string json)) :
  diag_requested rt req = false ->
  hasPostgresEnv (process_env h) = true ->
  req_method req <> "GET" ->
  req_method req <> "POST" ->
  handler rt ideal h req t =
    {| log := [(CreateTable, inr (Some (JArr [])))];
       result := method_not_allowed_response;
       final := Some (created t) |}.
Proof.
  intros Hdiag Henv Hget Hpost. unfold handler.
  rewrite (handler_try_configured _ _ _ Hdiag Henv).
  rewrite (run_resolved _ _ _ _ _ _ _ (ideal_create t)).
  by rewrite (string_eqb_false _ _ Hget), (string_eqb_false _ _ Hpost).
Qed.

(** The paths of a request, for a case analysis. *)
Lemma request_paths (rt : runtime) (h : host) (req : request) :
  (diag_requested rt req = true \/ hasPostgresEnv (process_env h) = false)
  \/ (diag_requested rt req = false /\ hasPostgresEnv (process_env h) = true
      /\ (req_method req = "GET"
          \/ (req_method req = "POST"
              /\ truthy_val (get_prop (parseBody rt req) "ping") = true)
          \/ (req_method req = "POST"
              /\ truthy_val (get_prop (parseBody rt req) "ping") = false)
          \/ (req_method req <> "GET" /\ req_method req <> "POST"))).
Proof.
  destruct (diag_requested rt req); [by left; left|].
  destruct (hasPostgresEnv (process_env h)); [|by left; right].
  right. split; [done|]. split; [done|].
  destruct (String.eqb (req_method req) "GET") eqn:Hget.
  { left. by apply String.eqb_eq. }
  apply String.eqb_neq in Hget.
  destruct (String.eqb (req_method req) "POST") eqn:Hpost.
  - apply String.eqb_eq in Hpost.
    destruct (truthy_val (get_prop (parseBody rt req) "ping")); auto.
  - apply String.eqb_neq in Hpost. auto.
Qed.

(** X11: the first request works on a fresh database.  A GET that is not
    diagnostic, in a configured environment, on a database where the table
    does not exist yet or holds no row under STORAGE_KEY, is answered 200
    [{ok:true, kv:{}}] and leaves the table created. *)
Theorem get_on_fresh_database (rt : runtime) (h : host) (req : request)
    (t : option (gmap string json)) :
  diag_requested rt req = false ->
  hasPostgresEnv (process_env h) = true ->
  req_method req = "GET" ->
  stored t STORAGE_KEY = None ->
  result (handler rt ideal h req t) =
    {| status := 200;
       headers := [no_store];
       body := JObj {[ "ok" := JBool true; "kv" := JObj ∅ ]} |}
  /\ exists rows, final (handler rt ideal h req t) = Some rows
                  /\ forall k, rows !! k = stored t k.
Proof.
  intros Hdiag Henv Hget Hrow.
  rewrite (handler_ideal_get _ _ _ _ Hdiag Henv Hget). simpl. split.
  - unfold get_response. by rewrite get_kv_rows_of, Hrow.
  - exists (created t). split; [done|]. apply stored_created.
Qed.

(** X12: whatever a POST with data intent stores is what the next GET
    answers with, for every body and whatever the table held before: the
    [kv] of the GET is the value the POST upserted (an object, an array, or
    the empty object the POST fell back to). *)
Theorem post_then_get_any_body (rt : runtime) (h1 h2 : host) (post get : request)
    (t : option (gmap string json)) :
  hasPostgresEnv (process_env h1) = true ->
  hasPostgresEnv (process_env h2) = true ->
  diag_requested rt post = false ->
  diag_requested rt get = false ->
  req_method post = "POST" ->
  truthy_val (get_prop (parseBody rt post) "ping") = false ->
  req_method get = "GET" ->
  issued (handler rt ideal h1 post t)
    = [CreateTable; Upsert STORAGE_KEY (post_kv (parseBody rt post))]
  /\ result (handler rt ideal h2 get (final (handler rt ideal h1 post t))) =
       {| status := 200;
          headers := [no_store];
          body := JObj {[ "ok" := JBool true; "kv" := post_kv (parseBody rt post) ]} |}.
Proof.
  intros Henv1 Henv2 Hdiag1 Hdiag2 Hpost Hping Hget.
  rewrite (handler_ideal_post _ _ _ _ Hdiag1 Henv1 Hpost Hping).
  split; [done|]. cbn [final].
  rewrite (handler_ideal_get _ _ _ _ Hdiag2 Henv2 Hget). cbn [result stored].
  unfold get_response. rewrite get_kv_rows_of, lookup_insert_eq.
  by rewrite post_kv_truthy.
Qed.

(** X13: on a database that behaves as specified every request is
    idempotent in what it answers and in the values it leaves: handled a
    second time right after the first, in the same environment and at the
    same clock reading, it issues the same statements with the same
    results, gets the same response, and the value stored under every key
    is the one the first run left.  (The time of the last write, which the
    table keeps beside each value, is not part of the statement.) *)
Theorem handler_idempotent (rt : runtime) (h : host) (req : request)
    (t : option (gmap string json)) :
  log (handler rt ideal h req (final (handler rt ideal h req t)))
    = log (handler rt ideal h req t)
  /\ result (handler rt ideal h req (final (handler rt ideal h req t)))
     = result (handler rt ideal h req t)
  /\ forall k,
       stored (final (handler rt ideal h req (final (handler rt ideal h req t)))) k
       = stored (final (handler rt ideal h req t)) k.
Proof.
  destruct (request_paths rt h req)
    as [Hno|(Hdiag & Henv & [Hget|[[Hpost Hping]|[[Hpost Hping]|[Hget Hpost]]]])].
  - by rewrite !(handler_no_database rt ideal h req _ Hno).
  - rewrite !(handler_ideal_get _ _ _ _ Hdiag Henv Hget). simpl.
    by rewrite stored_created.
  - rewrite !(handler_ideal_ping _ _ _ _ Hdiag Henv Hpost Hping). simpl.
    by rewrite insert_insert_eq.
  - rewrite !(handler_ideal_post _ _ _ _ Hdiag Henv Hpost Hping). simpl.
    by rewrite insert_insert_eq.
  - by rewrite !(handler_ideal_other _ _ _ _ Hdiag Henv Hget Hpost).
Qed.

(** X14: on a database that behaves as specified a ping always succeeds:
    the response is 200 [{ok:true}], the row under PING_KEY holds the stamp
    of this request, replacing any earlier one. *)
Theorem ping_succeeds (rt : runtime) (h : host) (req : request)
    (t : option (gmap string json)) :
  diag_requested rt req = false ->
  hasPostgresEnv (process_env h) = true ->
  req_method req = "POST" ->
  truthy_val (get_prop (parseBody rt req) "ping") = true ->
  result (handler rt ideal h req t) =
    {| status := 200; headers := [no_store]; body := JObj {[ "ok" := JBool true ]} |}
  /\ stored (final (handler rt ideal h req t)) PING_KEY
     = Some (JObj {[ "stamp" := JStr (pretty (Date_now h)) ]}).
Proof.
  intros Hdiag Henv Hpost Hping.
  rewrite (handler_ideal_ping _ _ _ _ Hdiag Henv Hpost Hping). simpl.
  split; [done|]. by rewrite lookup_insert_eq.
Qed.

(** X15: no request touches a row other than the two the handler owns:
    on a database that behaves as specified the value under any key other
    than STORAGE_KEY and PING_KEY is after the request what it was before;
    and a request whose method is not POST leaves every row as it was. *)
Theorem other_rows_untouched (rt : runtime) (h : host) (req : request)
    (t : option (gmap string json)) (k : string) :
  (k <> STORAGE_KEY /\ k <> PING_KEY) \/ req_method req <> "POST" ->
  stored (final (handler rt ideal h req t)) k = stored t k.
Proof.
  intros Hk.
  destruct (request_paths rt h req)
    as [Hno|(Hdiag & Henv & [Hget|[[Hpost Hping]|[[Hpost Hping]|[Hget Hpost]]]])].
  - by rewrite (handler_no_database rt ideal h req _ Hno).
  - rewrite (handler_ideal_get _ _ _ _ Hdiag Henv Hget). simpl. apply stored_created.
  - rewrite (handler_ideal_ping _ _ _ _ Hdiag Henv Hpost Hping). simpl.
    destruct Hk as [[_ Hk]|Hk]; [|done].
    rewrite lookup_insert_ne by done. apply stored_created.
  - rewrite (handler_ideal_post _ _ _ _ Hdiag Henv Hpost Hping). simpl.
    destruct Hk as [[Hk _]|Hk]; [|done].
    rewrite lookup_insert_ne by done. apply stored_created.
  - rewrite (handler_ideal_other _ _ _ _ Hdiag Henv Hget Hpost). simpl.
    apply stored_created.
Qed.

(** X16: a ping is invisible to readers: on a database that behaves as
    specified, a GET handled right after a ping is answered exactly as it
    would have been without the ping. *)
Theorem ping_invisible_to_get (rt : runtime) (h1 h2 : host) (ping get : request)
    (t : option (gmap string json)) :
  req_method ping = "POST" ->
  truthy_val (get_prop (parseBody rt ping) "ping") = true ->
  req_method get = "GET" ->
  result (handler rt ideal h2 get (final (handler rt ideal h1 ping t)))
    = result (handler rt ideal h2 get t).
Proof.
  intros Hpost Hping Hget.
  destruct (request_paths rt h2 get)
    as [Hno|(Hdiag & Henv & _)].
  { by rewrite !(handler_no_database rt ideal h2 get _ Hno). }
  rewrite !(handler_ideal_get _ _ _ _ Hdiag Henv Hget). cbn [result].
  destruct (request_paths rt h1 ping)
    as [Hno|(Hdiag1 & Henv1 & _)].
  { by rewrite (handler_no_database rt ideal h1 ping _ Hno). }
  rewrite (handler_ideal_ping _ _ _ _ Hdiag1 Henv1 Hpost Hping). cbn [final stored].
  rewrite lookup_insert_ne by apply keys_differ. by rewrite stored_created.
Qed.

(** ** Bodies at the edges *)

Lemma post_kv_empty : post_kv empty_object = empty_object.
Proof. reflexivity. Qed.

Lemma not_object_no_prop (b : json) (k : string) :
  (forall fields, b <> JObj fields) -> get_prop b k = None.
Proof. intros Hb. destruct b; try done. by destruct (Hb fields). Qed.

(** X17: a POST without a usable body overwrites the stored document with
    the empty object.  When the body is [undefined], or a falsy value that
    is not a string ([null], [false], 0), or the empty string (JSON.parse
    giving [{}] for the text [{}]), the parsed body is the empty object:
    once the schema statement has resolved the handler upserts [{}] under
    STORAGE_KEY, and on a database that behaves as specified [{}] is what
    the row holds afterwards, whatever it held before. *)
Theorem empty_body_stores_empty_object (rt : runtime) (D : driver) (h : host)
    (req : request) (s s1 : db D) (r0 : jsval) :
  diag_requested rt req = false ->
  hasPostgresEnv (process_env h) = true ->
  req_method req = "POST" ->
  (req_body req = None
   \/ (exists v, req_body req = Some v /\ truthy v = false
                 /\ forall text, v <> JStr text)
   \/ (req_body req = Some (JStr "") /\ JSON_parse rt "{}" = Some empty_object)) ->
  exec D CreateTable s = (inr r0, s1) ->
  parseBody rt req = empty_object
  /\ issued (handler rt D h req s) = [CreateTable; Upsert STORAGE_KEY empty_object]
  /\ forall t, stored (final (handler rt ideal h req t)) STORAGE_KEY = Some empty_object.
Proof.
  intros Hdiag Henv Hpost Hbody E0.
  assert (Hparse : parseBody rt req = empty_object).
  { unfold parseBody.
    destruct Hbody as [->|[(v & -> & Hv & Hstr)|[-> Hjson]]]; [done| |simpl; by rewrite Hjson].
    destruct v as [| | |text| |]; try done; try by rewrite Hv.
    by destruct (Hstr text). }
  assert (Hping : truthy_val (get_prop (parseBody rt req) "ping") = false)
    by by rewrite Hparse.
  split; [done|]. split.
  - unfold handler, issued. rewrite (handler_try_configured _ _ _ Hdiag Henv).
    rewrite (run_resolved _ _ _ _ _ _ _ E0).
    rewrite Hpost, guard_prop_truthy, Hping, Hparse, post_kv_empty.
    cbn [String.eqb Ascii.eqb Bool.eqb].
    by await D (Upsert STORAGE_KEY empty_object) s1 E1.
  - intros t. rewrite (handler_ideal_post _ _ _ _ Hdiag Henv Hpost Hping).
    cbn [final stored]. by rewrite lookup_insert_eq, Hparse, post_kv_empty.
Qed.

(** X18: a POST whose parsed body is not an object (a JSON text that is
    [null], a number, a string, a boolean or an array) is handled without a
    fault: it is never a ping, and once the schema statement has resolved
    the handler upserts the empty object under STORAGE_KEY. *)
Theorem non_object_body_stores_empty_object (rt : runtime) (D : driver) (h : host)
    (req : request) (s s1 : db D) (r0 : jsval) :
  diag_requested rt req = false ->
  hasPostgresEnv (process_env h) = true ->
  req_method req = "POST" ->
  (forall fields, parseBody rt req <> JObj fields) ->
  exec D CreateTable s = (inr r0, s1) ->
  issued (handler rt D h req s) = [CreateTable; Upsert STORAGE_KEY empty_object]
  /\ forall r1 s2,
       exec D (Upsert STORAGE_KEY empty_object) s1 = (inr r1, s2) ->
       result (handler rt D h req s) =
         {| status := 200; headers := [no_store]; body := JObj {[ "ok" := JBool true ]} |}.
Proof.
  intros Hdiag Henv Hpost Hbody E0.
  assert (Hping : truthy_val (get_prop (parseBody rt req) "ping") = false)
    by by rewrite (not_object_no_prop _ _ Hbody).
  assert (Hkv : post_kv (parseBody rt req) = empty_object).
  { rewrite post_kv_spec. unfold kv_if_object_or_array.
    by rewrite (not_object_no_prop _ _ Hbody). }
  unfold handler, issued. rewrite (handler_try_configured _ _ _ Hdiag Henv).
  rewrite (run_resolved _ _ _ _ _ _ _ E0).
  rewrite Hpost, guard_prop_truthy, Hping, Hkv.
  cbn [String.eqb Ascii.eqb Bool.eqb]. split.
  - by await D (Upsert STORAGE_KEY empty_object) s1 E1.
  - intros r1 s2 E1. by rewrite (run_resolved _ _ _ _ _ _ _ E1).
Qed.

(** ** The diagnostic response *)

(** X19: the diagnostic response gives away no value of the environment.
    For a diagnostic request, two hosts running the same Node version whose
    five recognized variables are non-empty in the same places get the same
    response, whatever the values of the variables, the rest of the
    environment, the clock, the driver and the state of the database. *)
Theorem diag_reveals_presence_only (rt : runtime) (D1 D2 : driver) (h1 h2 : host)
    (req : request) (s1 : db D1) (s2 : db D2) :
  diag_requested rt req = true ->
  process_version h1 = process_version h2 ->
  Forall (fun k => env_truthy (process_env h1) k = env_truthy (process_env h2) k)
    recognized_vars ->
  result (handler rt D1 h1 req s1) = result (handler rt D2 h2 req s2).
Proof.
  intros Hdiag Hversion Henv.
  rewrite !handler_no_database by by left.
  cbn [result]. rewrite Hdiag. unfold diag_response, hasPostgresEnv.
  unfold recognized_vars in Henv. rewrite !Forall_cons in Henv.
  destruct Henv as (-> & -> & -> & -> & -> & _). by rewrite Hversion.
Qed.

(** ** The further properties at sample inputs *)

Lemma module_init_unchanged_witness :
  env_truthy (process_env other_host) "POSTGRES_URL" = true
  /\ module_init (process_env other_host) = process_env other_host.
Proof.
  split; [reflexivity|].
  exact (module_init_unchanged (process_env other_host) (or_introl eq_refl)).
Defined.

Lemma status_meaning_witness :
  status (result (handler sample_runtime unreachable bare_host plain_get tt)) = 503
  /\ hasPostgresEnv (process_env bare_host) = false.
Proof.
  split; [reflexivity|].
  exact (proj2 (proj1 (status_meaning sample_runtime unreachable bare_host plain_get tt)
                  eq_refl)).
Defined.

Lemma get_kv_never_falsy_witness :
  exists kv,
    result (handler sample_runtime ideal configured_host plain_get table_with_document)
      = {| status := 200;
           headers := [no_store];
           body := JObj {[ "ok" := JBool true; "kv" := kv ]} |}
    /\ truthy kv = true.
Proof.
  destruct (get_kv_never_falsy sample_runtime ideal configured_host plain_get
              table_with_document table_with_document table_with_document
              (Some (JArr [])) (rows_of (Some (JObj {[ "old" := JNum 7 ]})))
              eq_refl eq_refl eq_refl eq_refl eq_refl) as (kv & Hresult & Htruthy & _).
  exists kv. split; [exact Hresult|exact Htruthy].
Defined.

Lemma only_post_writes_witness :
  req_method plain_get <> "POST"
  /\ Forall (fun q => is_upsert q = false)
       (issued (handler sample_runtime ideal configured_host plain_get None)).
Proof.
  assert (H : req_method plain_get <> "POST") by discriminate.
  split; [exact H|].
  exact (only_post_writes sample_runtime ideal configured_host plain_get None H).
Defined.

Lemma get_on_fresh_database_witness :
  stored None STORAGE_KEY = None
  /\ result (handler sample_runtime ideal configured_host plain_get None)
     = {| status := 200;
          headers := [no_store];
          body := JObj {[ "ok" := JBool true; "kv" := JObj ∅ ]} |}.
Proof.
  split; [reflexivity|].
  exact (proj1 (get_on_fresh_database sample_runtime configured_host plain_get None
                  eq_refl eq_refl eq_refl eq_refl)).
Defined.

Lemma post_then_get_any_body_witness :
  post_kv (parseBody sample_runtime array_post) = JArr [JNum 1; JNum 2]
  /\ result (handler sample_runtime ideal configured_host plain_get
               (final (handler sample_runtime ideal configured_host array_post
                         table_with_document)))
     = {| status := 200;
          headers := [no_store];
          body := JObj {[ "ok" := JBool true;
                          "kv" := post_kv (parseBody sample_runtime array_post) ]} |}.
Proof.
  split; [reflexivity|].
  exact (proj2 (post_then_get_any_body sample_runtime configured_host configured_host
                  array_post plain_get table_with_document
                  eq_refl eq_refl eq_refl eq_refl eq_refl eq_refl eq_refl)).
Defined.

Lemma ping_succeeds_witness :
  status (result (handler sample_runtime ideal configured_host ping_post None)) = 200
  /\ stored (final (handler sample_runtime ideal configured_host ping_post None)) PING_KEY
     = Some (JObj {[ "stamp" := JStr "1700000000000" ]}).
Proof.
  destruct (ping_succeeds sample_runtime configured_host ping_post None
              eq_refl eq_refl eq_refl eq_refl) as [Hresult Hstored].
  split; [by rewrite Hresult|exact Hstored].
Defined.

Lemma other_rows_untouched_witness :
  stored (final (handler sample_runtime ideal configured_host kv_post
                   table_with_foreign_row)) "someone:else"
    = Some (JNum 3).
Proof.
  assert (H : ("someone:else" <> STORAGE_KEY /\ "someone:else" <> PING_KEY)
              \/ req_method kv_post <> "POST")
    by (left; split; discriminate).
  exact (other_rows_untouched sample_runtime configured_host kv_post
           table_with_foreign_row "someone:else" H).
Defined.

Lemma ping_invisible_to_get_witness :
  result (handler sample_runtime ideal configured_host plain_get
            (final (handler sample_runtime ideal other_host ping_post
                      table_with_document)))
    = result (handler sample_runtime ideal configured_host plain_get table_with_document).
Proof.
  exact (ping_invisible_to_get sample_runtime other_host configured_host ping_post
           plain_get table_with_document eq_refl eq_refl eq_refl).
Defined.

Lemma empty_body_stores_empty_object_witness :
  req_body empty_post = None
  /\ stored (final (handler sample_runtime ideal configured_host empty_post
                      table_with_document)) STORAGE_KEY
     = Some empty_object.
Proof.
  split; [reflexivity|].
  exact (proj2 (proj2 (empty_body_stores_empty_object sample_runtime ideal
                         configured_host empty_post None (Some ∅) (Some (JArr []))
                         eq_refl eq_refl eq_refl (or_introl eq_refl) eq_refl))
           table_with_document).
Defined.

Lemma non_object_body_stores_empty_object_witness :
  parseBody sample_runtime null_text_post = JNull
  /\ issued (handler sample_runtime ideal configured_host null_text_post None)
     = [CreateTable; Upsert STORAGE_KEY empty_object].
Proof.
  assert (H : forall fields, parseBody sample_runtime null_text_post <> JObj fields)
    by (intros fields; discriminate).
  split; [reflexivity|].
  exact (proj1 (non_object_body_stores_empty_object sample_runtime ideal
                  configured_host null_text_post None (Some ∅) (Some (JArr []))
                  eq_refl eq_refl eq_refl H eq_refl)).
Defined.

Lemma diag_reveals_presence_only_witness :
  process_env configured_host <> process_env other_host
  /\ result (handler sample_runtime unreachable configured_host diag_get tt)
     = result (handler sample_runtime ideal other_host diag_get None).
Proof.
  assert (Henv : Forall (fun k => env_truthy (process_env configured_host) k
                                  = env_truthy (process_env other_host) k)
                   recognized_vars) by (repeat constructor).
  split.
  - intros H. apply (f_equal (fun env => env !! "SESSION_SECRET")) in H. discriminate H.
  - exact (diag_reveals_presence_only sample_runtime unreachable ideal configured_host
             other_host diag_get tt None eq_refl eq_refl Henv).
Defined.
